(** * Segi9 HTTP plugin for Zabbix agent 2: model and verified properties

    The repository holds two copies of the plugin.

    - [Current]: the plugin whose request logic lives in [doRequest]
      (package file with [Export], [Configure], [Validate], [doRequest];
      driven by [run] / [runManual url authType user pass]).
    - [Legacy]: the plugin built around the package-level [impl] value,
      whose [Export] performs the request inline (driven by
      [runPlugin] / [runManual] through [impl.Export]).

    Both are embedded function by function.  Calls into the Go standard
    library and the Zabbix SDK that the repository does not define
    ([conf.Unmarshal], [encoding/json], [http.NewRequest], [Client.Do],
    [io.ReadAll], and the Unicode path of [strings.ToLower]) are the fields
    of the class [Externals]; everything else is executable.

    Logging calls ([logInfof], [Debugf], ...) only write to the agent log
    and never influence a returned value; they are left out.  The
    read/write mutex is left out as well: every function below is the
    sequential body that runs inside the critical section. *)

From Stdlib Require Import ZArith Ascii String List Bool Lia.
From stdpp Require Import gmap strings.
Import ListNotations.

Open Scope string_scope.
Open Scope Z_scope.

(** ** Go integers and durations *)

(** [int] and [int64] on the 64-bit targets the agent is built for. *)
Definition int_min : Z := - 2 ^ 63.
Definition int_max : Z := 2 ^ 63 - 1.

Definition is_int (z : Z) : Prop := int_min <= z <= int_max.

(** Two's-complement wrap-around of an [int64] result. *)
Definition wrap64 (z : Z) : Z := (z + 2 ^ 63) mod 2 ^ 64 - 2 ^ 63.

(** [time.Duration] is an [int64] count of nanoseconds. *)
Definition Duration := Z.
Definition time_Second : Duration := 1000000000.

(** [time.Duration(n) * time.Second] *)
Definition seconds (n : Z) : Duration := wrap64 (n * time_Second).

(** ** Go strings: [strings.TrimSpace], [strings.ToLower] *)

Definition byte (c : ascii) : N := N_of_ascii c.

(** The six ASCII white-space bytes of [strings.asciiSpace]. *)
Definition asciiSpace (c : ascii) : bool :=
  let n := byte c in
  ((9 <=? n) && (n <=? 13) || (n =? 32))%N.

(** [unicode.IsSpace] read off the UTF-8 encoding: when [s] starts with a
    white-space rune, the rest of [s] after that rune.  Besides the ASCII
    ones these are U+0085, U+00A0, U+1680, U+2000..U+200A, U+2028, U+2029,
    U+202F, U+205F and U+3000. *)
Definition leadingSpace (s : string) : option string :=
  match s with
  | String c r =>
      if asciiSpace c then Some r
      else
        match byte c, r with
        | 194%N, String d r1 =>
            if ((byte d =? 133) || (byte d =? 160))%N then Some r1 else None
        | 225%N, String d (String e r2) =>
            if ((byte d =? 154) && (byte e =? 128))%N then Some r2 else None
        | 226%N, String d (String e r2) =>
            if ((byte d =? 128) &&
                ((128 <=? byte e) && (byte e <=? 138)
                 || (byte e =? 168) || (byte e =? 169) || (byte e =? 175)))%N
            then Some r2
            else if ((byte d =? 129) && (byte e =? 159))%N then Some r2
            else None
        | 227%N, String d (String e r2) =>
            if ((byte d =? 128) && (byte e =? 128))%N then Some r2 else None
        | _, _ => None
        end
  | EmptyString => None
  end.

(** The same test on the reversed string: a white-space rune at the end. *)
Definition trailingSpace (rs : string) : option string :=
  match rs with
  | String c r =>
      if asciiSpace c then Some r
      else
        match r with
        | String d r1 =>
            if ((byte d =? 194) && ((byte c =? 133) || (byte c =? 160)))%N
            then Some r1
            else
              match r1 with
              | String e r2 =>
                  if ((byte e =? 225) && (byte d =? 154) && (byte c =? 128))%N
                  then Some r2
                  else if ((byte e =? 226) && (byte d =? 128) &&
                           ((128 <=? byte c) && (byte c <=? 138)
                            || (byte c =? 168) || (byte c =? 169)
                            || (byte c =? 175)))%N
                  then Some r2
                  else if ((byte e =? 226) && (byte d =? 129)
                           && (byte c =? 159))%N
                  then Some r2
                  else if ((byte e =? 227) && (byte d =? 128)
                           && (byte c =? 128))%N
                  then Some r2
                  else None
              | EmptyString => None
              end
        | EmptyString => None
        end
  | EmptyString => None
  end.

Fixpoint strip (one : string -> option string) (fuel : nat) (s : string)
  : string :=
  match fuel with
  | O => s
  | S fuel' =>
      match one s with
      | Some r => strip one fuel' r
      | None => s
      end
  end.

Definition rev_string (s : string) : string :=
  string_of_list_ascii (rev (list_ascii_of_string s)).

Definition TrimLeft (s : string) : string :=
  strip leadingSpace (String.length s) s.

Definition TrimRight (s : string) : string :=
  rev_string (strip trailingSpace (String.length s) (rev_string s)).

(** [strings.TrimSpace] *)
Definition TrimSpace (s : string) : string := TrimRight (TrimLeft s).

Fixpoint isASCII (s : string) : bool :=
  match s with
  | EmptyString => true
  | String c r => (byte c <? 128)%N && isASCII r
  end.

Definition lowerByte (c : ascii) : ascii :=
  let n := byte c in
  if ((65 <=? n) && (n <=? 90))%N then ascii_of_N (n + 32) else c.

Fixpoint lowerASCII (s : string) : string :=
  match s with
  | EmptyString => EmptyString
  | String c r => String (lowerByte c) (lowerASCII r)
  end.

(** ** Base64 ([encoding/base64.StdEncoding], used by [SetBasicAuth]) *)

Definition encodeStd : string :=
  "ABCDEFGHIJKLMNOPQRSTUVWXYZabcdefghijklmnopqrstuvwxyz0123456789+/".

Definition sextet (n : N) : ascii :=
  match String.get (N.to_nat (n mod 64)) encodeStd with
  | Some c => c
  | None => "="%char
  end.

Fixpoint base64 (s : string) : string :=
  match s with
  | EmptyString => EmptyString
  | String a EmptyString =>
      let v := (byte a * 65536)%N in
      String (sextet (v / 262144)) (String (sextet (v / 4096)) "==")
  | String a (String b EmptyString) =>
      let v := (byte a * 65536 + byte b * 256)%N in
      String (sextet (v / 262144)) (String (sextet (v / 4096))
        (String (sextet (v / 64)) "="))
  | String a (String b (String c r)) =>
      let v := (byte a * 65536 + byte b * 256 + byte c)%N in
      String (sextet (v / 262144)) (String (sextet (v / 4096))
        (String (sextet (v / 64)) (String (sextet v) (base64 r))))
  end.

(** ** Errors

    An [error] value records the call that built it, with its format and
    arguments, so that a message naming a value can be read off. *)

Inductive error : Type :=
| errors_New (text : string)
| fmt_Errorf (format : string) (args : list fmt_arg)
| errs_Errorf (format : string) (args : list fmt_arg)
| errs_Wrap (cause : error) (text : string)
with fmt_arg : Type :=
| ArgString (s : string)
| ArgInt (n : Z)
| ArgError (e : error).

Inductive result (A : Type) : Type :=
| Ok (a : A)
| Err (e : error).
Arguments Ok {A} a.
Arguments Err {A} e.

(** ** Data model *)

(** [Config], with the tags [range=1:30,default=10] and [default=false]. *)
Record Config : Type := mkConfig {
  Timeout : Z;
  SkipVerify : bool
}.

Definition setTimeout (c : Config) (t : Z) : Config :=
  {| Timeout := t; SkipVerify := SkipVerify c |}.

(** The zero value of [Config] (an uninitialised [Plugin]). *)
Definition zeroConfig : Config := {| Timeout := 0; SkipVerify := false |}.

(** [Plugin]: the embedded [plugin.Base] only carries the logger. *)
Record Plugin : Type := mkPlugin {
  config : Config
}.

(** [plugin.GlobalOptions], of which only [Timeout] is read. *)
Record GlobalOptions : Type := mkGlobalOptions {
  global_Timeout : Z
}.

(** Dynamic values stored in a [map[string]interface{}]. *)
Inductive GoValue : Type :=
| VNil
| VBool (b : bool)
| VInt (n : Z)
| VString (s : string).

(** The non-nil dynamic types an [options interface{}] argument is
    inspected for; a nil interface is [None : option Options]. *)
Inductive Options : Type :=
| ConfigPtr (c : Config)
| StringMap (m : gmap string GoValue)
| RawBytes (data : string).

(** [http.Client] as built here: the deadline and the TLS switch. *)
Record Client : Type := mkClient {
  Client_Timeout : Duration;
  InsecureSkipVerify : bool
}.

(** [http.Request]: method, target, and the header set with [Header.Set]
    (every key used below is already in canonical form). *)
Record Request : Type := mkRequest {
  Method : string;
  URL : string;
  Header : gmap string string
}.

Definition Header_Set (k v : string) (r : Request) : Request :=
  {| Method := Method r; URL := URL r; Header := <[k := v]> (Header r) |}.

(** [req.SetBasicAuth(username, password)] *)
Definition SetBasicAuth (username password : string) (r : Request) : Request :=
  Header_Set "Authorization"
    ("Basic " ++ base64 (username ++ ":" ++ password)) r.

(** [http.Response]; [Body] is what [io.ReadAll(resp.Body)] yields. *)
Record Response : Type := mkResponse {
  Status : string;
  StatusCode : Z;
  Body : result string
}.

(** ** What the repository calls but does not define *)

Class Externals : Type := {
  (** [conf.Unmarshal(data, &cfg)]: the struct after the call, and the error. *)
  conf_Unmarshal : option Options -> Config -> Config * option error;
  (** [json.Marshal(m)] *)
  json_Marshal : gmap string GoValue -> result string;
  (** [json.Unmarshal(bytes, &cfg)]: the struct after the call, and the error. *)
  json_Unmarshal : string -> Config -> Config * option error;
  (** [http.NewRequest(method, url, nil)]: the error, if the request cannot
      be built; otherwise the request has the given method and target and
      an empty header. *)
  http_NewRequest : string -> string -> option error;
  (** [client.Do(req)] *)
  client_Do : Client -> Request -> result Response;
  (** [strings.Map(unicode.ToLower, s)], the path [strings.ToLower] takes
      when [s] holds a byte outside ASCII. *)
  unicode_ToLower : string -> string
}.

(** [strings.ToLower] *)
Definition ToLower `{Externals} (s : string) : string :=
  if isASCII s then lowerASCII s else unicode_ToLower s.

(** [http.NewRequest] on success. *)
Definition newRequest (method url : string) : Request :=
  {| Method := method; URL := url; Header := ∅ |}.

(** A run of the request path: the calls handed to [client.Do], in order,
    and the value returned. *)
Record Run (A : Type) : Type := mkRun {
  sent : list (Client * Request);
  returned : result A
}.
Arguments mkRun {A} sent returned.
Arguments sent {A} r.
Arguments returned {A} r.

Definition http_MethodGet : string := "GET".

(** ** The plugin with [doRequest] *)

Module Current.
Section WithExternals.
Context `{Externals}.

(** [Configure(global, options)] *)
Definition Configure (p : Plugin) (global : option GlobalOptions)
    (options : option Options) : Plugin :=
  (* Reset to built-in defaults before applying new values. *)
  let cfg := {| Timeout := 10; SkipVerify := false |} in
  let cfg :=
    match options with
    | Some o => fst (conf_Unmarshal (Some o) cfg)
    | None => cfg
    end in
  (* Global agent timeout as a fallback only if the timeout ended up at 0. *)
  let cfg :=
    match global with
    | Some g =>
        if (Timeout cfg =? 0) && (0 <? global_Timeout g)
        then setTimeout cfg (global_Timeout g)
        else cfg
    | None => cfg
    end in
  (* Hard clamp. *)
  let cfg := if Timeout cfg <? 1 then setTimeout cfg 1 else cfg in
  let cfg := if 30 <? Timeout cfg then setTimeout cfg 30 else cfg in
  {| config := cfg |}.

(** [Validate(options)]: [None] is the nil error. *)
Definition Validate (options : option Options) : option error :=
  let cfg := {| Timeout := 10; SkipVerify := false |} in
  let decoded :=
    match options with
    | Some o =>
        match conf_Unmarshal (Some o) cfg with
        | (_, Some err) =>
            Err (errs_Wrap err "failed to parse plugin configuration")
        | (cfg', None) => Ok cfg'
        end
    | None => Ok cfg
    end in
  match decoded with
  | Err e => Some e
  | Ok cfg =>
      if (Timeout cfg <? 1) || (30 <? Timeout cfg)
      then Some (fmt_Errorf
                   "Plugins.Segi9.Timeout: value %d is out of the allowed range [1..30]"
                   [ArgInt (Timeout cfg)])
      else None
  end.

(** The [switch strings.ToLower(authType)] of [doRequest]. *)
Definition applyAuth (authType user pass : string) (req : Request)
  : result Request :=
  let mode := ToLower authType in
  if String.eqb mode "basic" then
    Ok (SetBasicAuth user pass req)
  else if String.eqb mode "bearer" then
    if String.eqb user "" then
      Err (fmt_Errorf
             "auth_type 'bearer' requires a token in the third parameter (user)"
             [])
    else Ok (Header_Set "Authorization" ("Bearer " ++ user) req)
  else if String.eqb mode "none" || String.eqb mode "" then
    Ok req
  else
    Err (fmt_Errorf
           "unsupported auth_type %q; valid values are: none, basic, bearer"
           [ArgString authType]).

(** The timeout [doRequest] hands to the client. *)
Definition resolveTimeout (p : Plugin) : Duration :=
  let timeout := seconds (Timeout (config p)) in
  if timeout <=? 0 then seconds 10 else timeout.

(** [doRequest(url, authType, user, pass)] *)
Definition doRequest (p : Plugin) (url authType user pass : string)
  : Run string :=
  let timeout := resolveTimeout p in
  let skipVerify := SkipVerify (config p) in
  let client :=
    {| Client_Timeout := timeout; InsecureSkipVerify := skipVerify |} in
  match http_NewRequest http_MethodGet url with
  | Some err =>
      mkRun [] (Err (fmt_Errorf "failed to build HTTP request for %q: %w"
                       [ArgString url; ArgError err]))
  | None =>
      let req := newRequest http_MethodGet url in
      let req := Header_Set "User-Agent" "Zabbix-Plugin-Segi9/1.0" req in
      let req := Header_Set "Accept" "*/*" req in
      match applyAuth authType user pass req with
      | Err e => mkRun [] (Err e)
      | Ok req =>
          match client_Do client req with
          | Err err =>
              mkRun [(client, req)]
                (Err (fmt_Errorf "HTTP request to %q failed: %w"
                        [ArgString url; ArgError err]))
          | Ok resp =>
              match Body resp with
              | Err err =>
                  mkRun [(client, req)]
                    (Err (fmt_Errorf
                            "failed to read response body from %q: %w"
                            [ArgString url; ArgError err]))
              | Ok body => mkRun [(client, req)] (Ok body)
              end
          end
      end
  end.

(** [Export(key, params, _)] *)
Definition Export (p : Plugin) (key : string) (params : list string)
  : Run string :=
  if negb (String.eqb key "segi9.http") then
    mkRun [] (Err (errs_Errorf "unsupported key: %q" [ArgString key]))
  else if (length params =? 0)%nat
          || String.eqb (TrimSpace (nth 0 params "")) "" then
    mkRun [] (Err (fmt_Errorf
      "segi9.http: the first parameter (url) is required and cannot be empty"
      []))
  else
    let url := TrimSpace (nth 0 params "") in
    let authType :=
      if (1 <? length params)%nat
         && negb (String.eqb (TrimSpace (nth 1 params "")) "")
      then TrimSpace (nth 1 params "")
      else "none" in
    let user := if (2 <? length params)%nat then nth 2 params "" else "" in
    let pass := if (3 <? length params)%nat then nth 3 params "" else "" in
    doRequest p url authType user pass.

(** [runManual(url, authType, user, pass)]: the plugin it builds and the
    call it makes. *)
Definition runManual (url authType user pass : string) : Run string :=
  let p := {| config := {| Timeout := 10; SkipVerify := true |} |} in
  doRequest p url authType user pass.

End WithExternals.
End Current.

(** ** The plugin around the package-level [impl] *)

Module Legacy.
Section WithExternals.
Context `{Externals}.

(** The type switch on [privateOptions] in [Configure]: failures are only
    logged, and the struct keeps whatever the decoder left in it. *)
Definition applyOptions (cfg : Config) (privateOptions : option Options)
  : Config :=
  match privateOptions with
  | None => cfg
  | Some (ConfigPtr c) => c
  | Some (StringMap privateMap) =>
      match json_Marshal privateMap with
      | Err _ => cfg
      | Ok jsonBytes => fst (json_Unmarshal jsonBytes cfg)
      end
  | Some (RawBytes _) => cfg
  end.

(** [Configure(global, privateOptions)] *)
Definition Configure (p : Plugin) (global : option GlobalOptions)
    (privateOptions : option Options) : Plugin :=
  (* Initialize with defaults first. *)
  let cfg := fst (conf_Unmarshal None (config p)) in
  let cfg := applyOptions cfg privateOptions in
  let cfg :=
    match global with
    | Some g =>
        if 0 <? global_Timeout g then
          if Timeout cfg =? 0 then setTimeout cfg (global_Timeout g) else cfg
        else cfg
    | None => cfg
    end in
  (* Final safeguard: ensure timeout is at least 1 second. *)
  let cfg := if Timeout cfg <? 1 then setTimeout cfg 1 else cfg in
  {| config := cfg |}.

(** [Validate(privateOptions)]: [None] is the nil error. *)
Definition Validate (privateOptions : option Options) : option error :=
  match conf_Unmarshal None zeroConfig with
  | (_, Some err) =>
      Some (fmt_Errorf "failed to set default config: %w" [ArgError err])
  | (cfg, None) =>
      let decoded :=
        match privateOptions with
        | None => Ok cfg
        | Some (ConfigPtr c) => Ok c
        | Some (StringMap privateMap) =>
            match json_Marshal privateMap with
            | Err err =>
                Err (fmt_Errorf "failed to marshal config map: %w"
                       [ArgError err])
            | Ok jsonBytes =>
                match json_Unmarshal jsonBytes cfg with
                | (_, Some err) =>
                    Err (fmt_Errorf "failed to unmarshal JSON config: %w"
                           [ArgError err])
                | (cfg', None) => Ok cfg'
                end
            end
        | Some (RawBytes _) => Ok cfg
        end in
      match decoded with
      | Err e => Some e
      | Ok cfg =>
          if (Timeout cfg <? 1) || (30 <? Timeout cfg)
          then Some (fmt_Errorf
                       "invalid timeout: %d (must be between 1 and 30)"
                       [ArgInt (Timeout cfg)])
          else None
      end
  end.

(** The [switch authType] of [Export]. *)
Definition applyAuth (authType usernameOrToken password : string)
    (req : Request) : result Request :=
  if String.eqb authType "basic" then
    Ok (SetBasicAuth usernameOrToken password req)
  else if String.eqb authType "bearer" then
    Ok (Header_Set "Authorization" ("Bearer " ++ usernameOrToken) req)
  else if String.eqb authType "none" then
    Ok req
  else
    Err (fmt_Errorf "unsupported auth type: %s" [ArgString authType]).

(** The timeout [Export] hands to the client. *)
Definition resolveTimeout (p : Plugin) : Duration :=
  let timeoutVal := Timeout (config p) in
  if timeoutVal =? 0 then seconds 10 else seconds timeoutVal.

(** [Export(key, params, ctx)]; [key] is only logged. *)
Definition Export (p : Plugin) (key : string) (params : list string)
  : Run string :=
  if (length params <? 1)%nat then
    mkRun [] (Err (errors_New "missing URL parameter"))
  else
    let url := nth 0 params "" in
    if String.eqb url "" then
      mkRun [] (Err (errors_New "URL cannot be empty"))
    else
      let authType :=
        if (1 <? length params)%nat && negb (String.eqb (nth 1 params "") "")
        then ToLower (nth 1 params "")
        else "none" in
      let usernameOrToken :=
        if (2 <? length params)%nat then nth 2 params "" else "" in
      let password :=
        if (3 <? length params)%nat then nth 3 params "" else "" in
      let skipVerify := SkipVerify (config p) in
      let timeout := resolveTimeout p in
      let client :=
        {| Client_Timeout := timeout; InsecureSkipVerify := skipVerify |} in
      match http_NewRequest "GET" url with
      | Some err =>
          mkRun [] (Err (fmt_Errorf "failed to create request: %w"
                           [ArgError err]))
      | None =>
          let req := newRequest "GET" url in
          let req := Header_Set "Content-Type" "application/json" req in
          match applyAuth authType usernameOrToken password req with
          | Err e => mkRun [] (Err e)
          | Ok req =>
              match client_Do client req with
              | Err err =>
                  mkRun [(client, req)]
                    (Err (fmt_Errorf "request failed: %w" [ArgError err]))
              | Ok resp =>
                  match Body resp with
                  | Err err =>
                      mkRun [(client, req)]
                        (Err (fmt_Errorf "failed to read response body: %w"
                                [ArgError err]))
                  | Ok body => mkRun [(client, req)] (Ok body)
                  end
              end
          end
      end.

(** [runManual]: the parameters it assembles from the flags, the
    configuration it installs in [impl], and the call it makes. *)
Definition runManual (manualURL authType username password : string)
  : Run string :=
  let params :=
    if negb (String.eqb authType "none")
    then [manualURL; authType; username; password]
    else [manualURL] in
  let impl := {| config := {| Timeout := 10; SkipVerify := true |} |} in
  Export impl "segi9.http" params.

End WithExternals.
End Legacy.

(** ** The log, standard output and the file system

    What the functions above leave out: the lines they hand to the logger
    and what the command-line entry points print.  Format strings are kept
    as the source spells them, escape sequences included. *)

Inductive Level : Type :=
| LevelInfo
| LevelDebug
| LevelErr.

Inductive log_arg : Type :=
| LogString (s : string)
| LogInt (n : Z)
| LogBool (b : bool)
| LogDuration (d : Duration)
| LogError (e : error).

(** One logging call: through the agent's logger ([p.Logger.Infof],
    [Debugf], [Errf]) or through [log.Printf]. *)
Inductive LogLine : Type :=
| AgentLine (level : Level) (format : string) (args : list log_arg)
| StdLine (format : string) (args : list log_arg).

(** [fmt.Printf] and [fmt.Println] on standard output. *)
Inductive Print : Type :=
| Printf (format : string) (args : list fmt_arg)
| Println (args : list fmt_arg).

(** What reaches standard error: [fmt.Fprintf(os.Stderr, ...)], a line of
    the standard logger, and the text of [flag.Usage]. *)
Inductive ErrLine : Type :=
| ErrPrintf (format : string) (args : list fmt_arg)
| ErrLog (line : LogLine)
| ErrUsage.

(** A finished command-line run: [status] is 0 for a normal return and the
    argument of [os.Exit] otherwise. *)
Record Process : Type := mkProcess {
  stdout : list Print;
  stderr : list ErrLine;
  status : Z;
  calls : list (Client * Request)
}.

(** The string flags [-manual], [-auth], [-user], [-pass] after
    [flag.Parse]. *)
Record Flags : Type := mkFlags {
  flag_manual : string;
  flag_auth : string;
  flag_user : string;
  flag_pass : string
}.

(** ** The plugin with [doRequest], with its log lines

    [logger] tells whether [p.Logger] is set (it is nil in manual mode). *)

Module CurrentLogged.
Section WithExternals.
Context `{Externals}.

Definition logInfof (logger : bool) (format : string) (args : list log_arg)
  : LogLine :=
  if logger then AgentLine LevelInfo format args
  else StdLine ("[INFO]  " ++ format) args.

Definition logDebugf (logger : bool) (format : string) (args : list log_arg)
  : LogLine :=
  if logger then AgentLine LevelDebug format args
  else StdLine ("[DEBUG] " ++ format) args.

Definition logErrf (logger : bool) (format : string) (args : list log_arg)
  : LogLine :=
  if logger then AgentLine LevelErr format args
  else StdLine ("[ERROR] " ++ format) args.

(** [Start()] and [Stop()] *)
Definition Start (logger : bool) : list LogLine :=
  [logInfof logger "Segi9 HTTP plugin started" []].

Definition Stop (logger : bool) : list LogLine :=
  [logInfof logger "Segi9 HTTP plugin stopped" []].

(** [doRequest(url, authType, user, pass)] *)
Definition doRequest (logger : bool) (p : Plugin)
    (url authType user pass : string) : list LogLine * Run string :=
  let timeout := Current.resolveTimeout p in
  let skipVerify := SkipVerify (config p) in
  let client :=
    {| Client_Timeout := timeout; InsecureSkipVerify := skipVerify |} in
  match http_NewRequest http_MethodGet url with
  | Some err =>
      ([], mkRun [] (Err (fmt_Errorf "failed to build HTTP request for %q: %w"
                            [ArgString url; ArgError err])))
  | None =>
      let req := newRequest http_MethodGet url in
      let req := Header_Set "User-Agent" "Zabbix-Plugin-Segi9/1.0" req in
      let req := Header_Set "Accept" "*/*" req in
      match Current.applyAuth authType user pass req with
      | Err e => ([], mkRun [] (Err e))
      | Ok req =>
          let going :=
            logDebugf logger "→ GET %s (timeout=%v tls_skip=%v)"
              [LogString url; LogDuration timeout; LogBool skipVerify] in
          match client_Do client req with
          | Err err =>
              ([going],
               mkRun [(client, req)]
                 (Err (fmt_Errorf "HTTP request to %q failed: %w"
                         [ArgString url; ArgError err])))
          | Ok resp =>
              match Body resp with
              | Err err =>
                  ([going],
                   mkRun [(client, req)]
                     (Err (fmt_Errorf
                             "failed to read response body from %q: %w"
                             [ArgString url; ArgError err])))
              | Ok body =>
                  ([going;
                    logDebugf logger "← %s (%d bytes)"
                      [LogString (Status resp);
                       LogInt (Z.of_nat (String.length body))]],
                   mkRun [(client, req)] (Ok body))
              end
          end
      end
  end.

(** [Export(key, params, _)] *)
Definition Export (logger : bool) (p : Plugin) (key : string)
    (params : list string) : list LogLine * Run string :=
  if negb (String.eqb key "segi9.http") then
    ([], mkRun [] (Err (errs_Errorf "unsupported key: %q" [ArgString key])))
  else if (length params =? 0)%nat
          || String.eqb (TrimSpace (nth 0 params "")) "" then
    ([], mkRun [] (Err (fmt_Errorf
      "segi9.http: the first parameter (url) is required and cannot be empty"
      [])))
  else
    let url := TrimSpace (nth 0 params "") in
    let authType :=
      if (1 <? length params)%nat
         && negb (String.eqb (TrimSpace (nth 1 params "")) "")
      then TrimSpace (nth 1 params "")
      else "none" in
    let user := if (2 <? length params)%nat then nth 2 params "" else "" in
    let pass := if (3 <? length params)%nat then nth 3 params "" else "" in
    let line :=
      logDebugf logger "export: key=%s url=%q auth=%s"
        [LogString key; LogString url; LogString authType] in
    let (lines, run) := doRequest logger p url authType user pass in
    (line :: lines, run).

End WithExternals.
End CurrentLogged.

(** ** The plugin around [impl], with its log lines

    [url_String] stands for [req.URL.String()], the parsed URL written out
    again by [net/url]. *)

Module LegacyLogged.
Section WithExternals.
Context `{Externals}.
Variable url_String : string -> string.

Definition Infof (logger : bool) (format : string) (args : list log_arg)
  : LogLine :=
  if logger then AgentLine LevelInfo format args else StdLine format args.

Definition Debugf (logger : bool) (format : string) (args : list log_arg)
  : LogLine :=
  if logger then AgentLine LevelDebug format args
  else StdLine ("[DEBUG] " ++ format) args.

Definition Errorf (logger : bool) (format : string) (args : list log_arg)
  : LogLine :=
  if logger then AgentLine LevelErr format args
  else StdLine ("[ERROR] " ++ format) args.

(** [Start()] and [Stop()] *)
Definition Start (logger : bool) : list LogLine :=
  [Infof logger "Segi9 plugin started" []].

Definition Stop (logger : bool) : list LogLine :=
  [Infof logger "Segi9 plugin stopped" []].

(** [Name()] *)
Definition Name : string := "Segi9".

(** [Export(key, params, ctx)] *)
Definition Export (logger : bool) (p : Plugin) (key : string)
    (params : list string) : list LogLine * Run string :=
  let called :=
    Debugf logger "Export called with key: %s, params count: %d"
      [LogString key; LogInt (Z.of_nat (length params))] in
  if (length params <? 1)%nat then
    ([called; Errorf logger "Error: missing URL parameter" []],
     mkRun [] (Err (errors_New "missing URL parameter")))
  else
    let url := nth 0 params "" in
    if String.eqb url "" then
      ([called; Errorf logger "Error: URL cannot be empty" []],
       mkRun [] (Err (errors_New "URL cannot be empty")))
    else
      let given :=
        (1 <? length params)%nat && negb (String.eqb (nth 1 params "") "") in
      let authType := if given then ToLower (nth 1 params "") else "none" in
      let usernameOrToken :=
        if (2 <? length params)%nat then nth 2 params "" else "" in
      let password :=
        if (3 <? length params)%nat then nth 3 params "" else "" in
      let skipVerify := SkipVerify (config p) in
      let timeout := Legacy.resolveTimeout p in
      let client :=
        {| Client_Timeout := timeout; InsecureSkipVerify := skipVerify |} in
      let lines :=
        ([called; Debugf logger "URL: %s" [LogString url]]
         ++ (if given
             then [Debugf logger "AuthType: %s" [LogString authType]]
             else [])
         ++ (if (2 <? length params)%nat
             then [Debugf logger "Username/Token provided (masked)" []]
             else [])
         ++ (if (3 <? length params)%nat
             then [Debugf logger "Password provided (masked)" []]
             else [])
         ++ [Debugf logger
               "Creating request to %s with timeout %v, SkipVerify: %v"
               [LogString url; LogDuration timeout; LogBool skipVerify]])%list in
      match http_NewRequest "GET" url with
      | Some err =>
          ((lines ++ [Errorf logger "Failed to create request: %v"
                        [LogError err]])%list,
           mkRun [] (Err (fmt_Errorf "failed to create request: %w"
                            [ArgError err])))
      | None =>
          let req := newRequest "GET" url in
          let req := Header_Set "Content-Type" "application/json" req in
          match Legacy.applyAuth authType usernameOrToken password req with
          | Err e =>
              ((lines ++ [Errorf logger "Unsupported auth type: %s"
                            [LogString authType]])%list,
               mkRun [] (Err e))
          | Ok req =>
              let lines :=
                (lines ++ [Debugf logger "Sending %s request to %s..."
                             [LogString (Method req);
                              LogString (url_String (URL req))]])%list in
              match client_Do client req with
              | Err err =>
                  ((lines ++ [Errorf logger "Request failed: %v"
                                [LogError err]])%list,
                   mkRun [(client, req)]
                     (Err (fmt_Errorf "request failed: %w" [ArgError err])))
              | Ok resp =>
                  let lines :=
                    (lines
                     ++ [Debugf logger
                           "Response received: Status %s, StatusCode %d"
                           [LogString (Status resp);
                            LogInt (StatusCode resp)];
                         Debugf logger "Reading response body..." []])%list in
                  match Body resp with
                  | Err err =>
                      ((lines ++ [Errorf logger
                                    "Failed to read response body: %v"
                                    [LogError err]])%list,
                       mkRun [(client, req)]
                         (Err (fmt_Errorf "failed to read response body: %w"
                                 [ArgError err])))
                  | Ok body =>
                      ((lines ++ [Debugf logger
                                    "Body read successfully (%d bytes)"
                                    [LogInt (Z.of_nat (String.length body))]])%list,
                       mkRun [(client, req)] (Ok body))
                  end
              end
          end
      end.

End WithExternals.
End LegacyLogged.

(** ** Manual mode of the plugin with [doRequest] *)

Module CurrentMain.
Section WithExternals.
Context `{Externals}.

(** [runManual(url, authType, user, pass)] *)
Definition runManual (url authType user pass : string) : Process :=
  let p := {| config := {| Timeout := 10; SkipVerify := true |} |} in
  let banner :=
    ErrPrintf "[manual] url=%s auth=%s\n" [ArgString url; ArgString authType] in
  let (lines, run) := CurrentLogged.doRequest false p url authType user pass in
  match returned run with
  | Err err =>
      {| stdout := [];
         stderr := (banner :: map ErrLog lines
                    ++ [ErrPrintf "error: %v\n" [ArgError err]])%list;
         status := 1;
         calls := sent run |}
  | Ok result =>
      {| stdout := [Println [ArgString result]];
         stderr := banner :: map ErrLog lines;
         status := 0;
         calls := sent run |}
  end.

End WithExternals.
End CurrentMain.

(** ** Manual mode and start-up of the plugin around [impl] *)

Module LegacyMain.
Section WithExternals.
Context `{Externals}.
Variable url_String : string -> string.

(** [runManual()], from the parsed flags on. *)
Definition runManual (flags : Flags) : Process :=
  if String.eqb (flag_manual flags) "" then
    {| stdout := []; stderr := [ErrUsage]; status := 1; calls := [] |}
  else
    let running :=
      ErrLog (StdLine "Running in manual mode. URL: %s"
                [LogString (flag_manual flags)]) in
    let params :=
      if negb (String.eqb (flag_auth flags) "none")
      then [flag_manual flags; flag_auth flags; flag_user flags;
            flag_pass flags]
      else [flag_manual flags] in
    let impl := {| config := {| Timeout := 10; SkipVerify := true |} |} in
    let (lines, run) :=
      LegacyLogged.Export url_String false impl "segi9.http" params in
    match returned run with
    | Err err =>
        {| stdout := [Printf "Error: %v\n" [ArgError err]];
           stderr := (running :: map ErrLog lines
                      ++ [ErrLog (StdLine "Export failed: %v"
                                    [LogError err])])%list;
           status := 1;
           calls := sent run |}
    | Ok res =>
        {| stdout := [Println [ArgString res]];
           stderr := running :: map ErrLog lines;
           status := 0;
           calls := sent run |}
    end.

End WithExternals.

(** [os.Stat(name)] as [cleanupSocket] reads it: the [IsDir] bit of the
    file information, an error for which [os.IsNotExist] holds, or any
    other error. *)
Inductive StatResult : Type :=
| StatInfo (isDir : bool)
| StatNotExist
| StatFailed (err : error).

(** [cleanupSocket(socket)].  [os.Stat] and [os.Remove] belong to the
    operating system and are taken as they answer; the result is the list
    of paths handed to [os.Remove], in order, and the warnings logged. *)
Definition cleanupSocket (os_Stat : string -> StatResult)
    (os_Remove : string -> option error) (socket : string)
  : list string * list LogLine :=
  match os_Stat socket with
  | StatFailed err =>
      ([], [StdLine "Warning: Failed to stat socket %s: %v"
              [LogString socket; LogError err]])
  | StatNotExist => ([], [])
  | StatInfo isDir =>
      if negb isDir then
        match os_Remove socket with
        | Some err =>
            ([socket],
             [StdLine "Warning: Failed to remove stale socket %s: %v"
                [LogString socket; LogError err]])
        | None => ([socket], [])
        end
      else ([], [])
  end.

End LegacyMain.

(** ** A sample environment

    One concrete choice of the external calls, used to run the model:
    [conf.Unmarshal] installs the tag defaults on nil data, copies a
    [Config] it is handed and otherwise leaves the struct alone; the JSON
    round trip changes nothing; a URL holding an ASCII control byte cannot
    be turned into a request (as [net/url] rejects it); and [client.Do]
    gives one fixed answer, for [sample] a response with status 503 and
    the body ["down"]. *)

Fixpoint hasCTLByte (s : string) : bool :=
  match s with
  | EmptyString => false
  | String c r => ((byte c <? 32) || (byte c =? 127))%N || hasCTLByte r
  end.

Definition answering (answer : result Response) : Externals := {|
  conf_Unmarshal := fun data cfg =>
    match data with
    | None => ({| Timeout := 10; SkipVerify := false |}, None)
    | Some (ConfigPtr c) => (c, None)
    | Some _ => (cfg, None)
    end;
  json_Marshal := fun _ => Ok "{}";
  json_Unmarshal := fun _ cfg => (cfg, None);
  http_NewRequest := fun _ url =>
    if hasCTLByte url
    then Some (errors_New "net/url: invalid control character in URL")
    else None;
  client_Do := fun _ _ => answer;
  unicode_ToLower := fun s => s
|}.

Definition sample : Externals :=
  answering (Ok {| Status := "503 Service Unavailable"; StatusCode := 503;
                   Body := Ok "down" |}).

(** The server of the specification's first scenario: 200 and ["ok"]. *)
Definition ok200 : Externals :=
  answering (Ok {| Status := "200 OK"; StatusCode := 200; Body := Ok "ok" |}).

(** A server that cannot be reached, and one whose answer breaks off
    while the body is read. *)
Definition refusing : Externals :=
  answering (Err (errors_New "dial tcp: connection refused")).

Definition breaking : Externals :=
  answering (Ok {| Status := "200 OK"; StatusCode := 200;
                   Body := Err (errors_New "unexpected EOF") |}).



(** ** Vocabulary of the statements *)

(** The client built from the store's snapshot, and the request as it
    stands before the authentication switch, in each copy. *)
Definition currentClient (p : Plugin) : Client :=
  {| Client_Timeout := Current.resolveTimeout p;
     InsecureSkipVerify := SkipVerify (config p) |}.

Definition currentRequest (url : string) : Request :=
  Header_Set "Accept" "*/*"
    (Header_Set "User-Agent" "Zabbix-Plugin-Segi9/1.0"
       (newRequest http_MethodGet url)).

Definition legacyClient (p : Plugin) : Client :=
  {| Client_Timeout := Legacy.resolveTimeout p;
     InsecureSkipVerify := SkipVerify (config p) |}.

Definition legacyRequest (url : string) : Request :=
  Header_Set "Content-Type" "application/json" (newRequest "GET" url).

(** The authentication mode each [Export] settles on from its parameters. *)
Definition currentAuthType (params : list string) : string :=
  if (1 <? length params)%nat
     && negb (String.eqb (TrimSpace (nth 1 params "")) "")
  then TrimSpace (nth 1 params "")
  else "none".

Definition legacyAuthType `{Externals} (params : list string) : string :=
  if (1 <? length params)%nat && negb (String.eqb (nth 1 params "") "")
  then ToLower (nth 1 params "")
  else "none".


(** The value [Current.Configure] settles on before the clamp: the decoded
    timeout, or the global one when the decoded timeout is 0. *)
Definition requested `{Externals} (global : option GlobalOptions)
    (options : option Options) : Z :=
  let t :=
    match options with
    | Some o => Timeout (fst (conf_Unmarshal (Some o) (mkConfig 10 false)))
    | None => 10
    end in
  match global with
  | Some g => if (t =? 0) && (0 <? global_Timeout g) then global_Timeout g else t
  | None => t
  end.

Definition clamp (t : Z) : Z := Z.min 30 (Z.max 1 t).

(** The parameters the legacy manual mode hands to [Export]. *)
Definition manualParams (flags : Flags) : list string :=
  if negb (String.eqb (flag_auth flags) "none")
  then [flag_manual flags; flag_auth flags; flag_user flags; flag_pass flags]
  else [flag_manual flags].



(** * Properties *)

(** ** Strings *)

Example TrimSpace_padded :
  TrimSpace "  https://example.test/status  " = "https://example.test/status".
Proof. reflexivity. Qed.

Example base64_admin : base64 "admin:s3cr3t" = "YWRtaW46czNjcjN0".
Proof. reflexivity. Qed.

Example base64_padding : base64 "ab:c" = "YWI6Yw==".
Proof. reflexivity. Qed.

Lemma strip_all_space (s : string) :
  Forall (fun c => asciiSpace c = true) (list_ascii_of_string s) ->
  forall fuel, (String.length s <= fuel)%nat -> strip leadingSpace fuel s = "".
Proof.
  induction s as [|c r IH]; intros Hall fuel Hlen.
  - destruct fuel; reflexivity.
  - destruct fuel as [|fuel]; [simpl in Hlen; lia|].
    simpl in Hall. inversion Hall as [|? ? Hc Hr]; subst.
    cbn [strip leadingSpace]. rewrite Hc.
    apply IH; [assumption | simpl in Hlen; lia].
Qed.

(** A string made of ASCII white space only is empty once trimmed. *)
Lemma TrimSpace_all_space (s : string) :
  Forall (fun c => asciiSpace c = true) (list_ascii_of_string s) ->
  TrimSpace s = "".
Proof.
  intros Hall. unfold TrimSpace, TrimLeft.
  rewrite (strip_all_space s Hall) by lia. reflexivity.
Qed.

Lemma ToLower_empty `{Externals} : ToLower "" = "".
Proof. reflexivity. Qed.

(** ** Durations *)

Lemma wrap64_small (z : Z) : - 2 ^ 63 <= z < 2 ^ 63 -> wrap64 z = z.
Proof.
  intros Hz. unfold wrap64.
  rewrite Z.mod_small by lia. lia.
Qed.

Lemma seconds_exact (n : Z) :
  -9223372036 <= n <= 9223372036 -> seconds n = n * 1000000000.
Proof.
  intros Hn. unfold seconds, time_Second. apply wrap64_small. lia.
Qed.

Lemma seconds_10 : seconds 10 = 10000000000.
Proof. reflexivity. Qed.

(** A duration computed with wrap-around is an [int64] again. *)
Lemma seconds_is_int (n : Z) : is_int (seconds n).
Proof.
  unfold is_int, int_min, int_max, seconds, wrap64.
  pose proof (Z.mod_pos_bound (n * time_Second + 2 ^ 63) (2 ^ 64)) as Hb.
  lia.
Qed.

(** ** Configuration store: [Configure] *)

Section ConfigureProps.
Context `{Externals}.

Lemma Current_Configure_stores (p : Plugin) global options :
  Timeout (config (Current.Configure p global options))
  = clamp (requested global options).
Proof.
  unfold Current.Configure, requested, clamp, setTimeout.
  destruct options as [o|]; destruct global as [g|]; cbn [config Timeout];
    repeat match goal with
           | |- context [if ?b then _ else _] => destruct b eqn:?
           end;
    cbn [Timeout] in *; lia.
Qed.

(** Whatever was asked for, the current [Configure] leaves a timeout
    within 1..30 in the store. *)
Lemma Current_Configure_in_range (p : Plugin) global options :
  1 <= Timeout (config (Current.Configure p global options)) <= 30.
Proof. rewrite Current_Configure_stores. unfold clamp. lia. Qed.

(** A decoded timeout of 45 is stored as 30 by the current [Configure]. *)
Lemma Current_Configure_45 (p : Plugin) global o :
  Timeout (fst (conf_Unmarshal (Some o) (mkConfig 10 false))) = 45 ->
  Timeout (config (Current.Configure p global (Some o))) = 30.
Proof.
  intros H45. rewrite Current_Configure_stores. unfold requested, clamp.
  rewrite H45. destruct global; reflexivity.
Qed.

(** The other field is stored as decoded. *)
Lemma Current_Configure_SkipVerify (p : Plugin) global o :
  SkipVerify (config (Current.Configure p global (Some o)))
  = SkipVerify (fst (conf_Unmarshal (Some o) (mkConfig 10 false))).
Proof.
  unfold Current.Configure, setTimeout.
  destruct global as [g|]; cbn [config];
    repeat match goal with
           | |- context [if ?b then _ else _] => destruct b
           end; reflexivity.
Qed.

(** The legacy [Configure] only raises a timeout below 1. *)
Lemma Legacy_Configure_lower_bound (p : Plugin) global options :
  1 <= Timeout (config (Legacy.Configure p global options)).
Proof.
  unfold Legacy.Configure, setTimeout. cbn [config].
  repeat match goal with
         | |- context [match ?g with Some _ => _ | None => _ end] =>
             destruct g
         | |- context [if ?b then _ else _] => destruct b eqn:?
         end; cbn [Timeout] in *; lia.
Qed.

(** C1, at the legacy [Configure]: a candidate [*Config] with timeout 45 is
    committed as 45.  The store is required to hold a timeout within 1..30
    after every commit (30 for a requested 45); the legacy copy applies the
    lower bound only. *)
Theorem Legacy_Configure_keeps_45 (p : Plugin) global (skip : bool) :
  Timeout (config (Legacy.Configure p global
                     (Some (ConfigPtr (mkConfig 45 skip))))) = 45.
Proof.
  unfold Legacy.Configure, Legacy.applyOptions. cbn [config Timeout].
  destruct global as [g|]; [destruct (0 <? global_Timeout g)|]; reflexivity.
Qed.

End ConfigureProps.

(** ** Configuration validator: [Validate] *)

Section ValidateProps.
Context `{Externals}.

Lemma range_check (T : Z) :
  ((T <? 1) || (30 <? T)) = false <-> 1 <= T <= 30.
Proof.
  rewrite orb_false_iff, !Z.ltb_ge. lia.
Qed.

(** A configuration that cannot be decoded is rejected, with the decoder's
    error wrapped. *)
Lemma Current_Validate_undecodable (o : Options) cfg err :
  conf_Unmarshal (Some o) (mkConfig 10 false) = (cfg, Some err) ->
  Current.Validate (Some o)
  = Some (errs_Wrap err "failed to parse plugin configuration").
Proof. intros Hdec. unfold Current.Validate. rewrite Hdec. reflexivity. Qed.

(** With no options at all, the default timeout of 10 is what is checked. *)
Lemma Current_Validate_nil : Current.Validate None = None.
Proof. reflexivity. Qed.

(** Whatever the decoder does, the current [Validate] accepts only options
    that decode without error to a timeout within 1..30. *)
Lemma Current_Validate_accepts_only_in_range (o : Options) :
  Current.Validate (Some o) = None ->
  exists cfg,
    conf_Unmarshal (Some o) (mkConfig 10 false) = (cfg, None)
    /\ 1 <= Timeout cfg <= 30.
Proof.
  unfold Current.Validate.
  destruct (conf_Unmarshal (Some o) (mkConfig 10 false)) as [cfg [err|]];
    [discriminate|].
  destruct ((Timeout cfg <? 1) || (30 <? Timeout cfg)) eqn:Hchk;
    [discriminate|].
  intros _. exists cfg. split; [reflexivity | apply range_check, Hchk].
Qed.

(** C3: for every timeout candidate T, [Validate] returns no error exactly
    when 1 <= T <= 30, and a rejected candidate comes back as an error that
    carries T (nothing is corrected: the only result is the error).  In the
    current plugin the candidate is what [conf.Unmarshal] decodes from the
    options; in the legacy plugin it is the [*Config] handed in, or what the
    JSON round trip of a map decodes. *)
Theorem Validate_accepts_iff_in_range :
  (forall (T : Z) (skip : bool) (o : Options),
      conf_Unmarshal (Some o) (mkConfig 10 false) = (mkConfig T skip, None) ->
      (Current.Validate (Some o) = None <-> 1 <= T <= 30) /\
      (~ 1 <= T <= 30 ->
       Current.Validate (Some o)
       = Some (fmt_Errorf
                 "Plugins.Segi9.Timeout: value %d is out of the allowed range [1..30]"
                 [ArgInt T])))
  /\
  (forall (T : Z) (skip : bool) (dflt : Config),
      conf_Unmarshal None zeroConfig = (dflt, None) ->
      (Legacy.Validate (Some (ConfigPtr (mkConfig T skip))) = None
       <-> 1 <= T <= 30) /\
      (~ 1 <= T <= 30 ->
       Legacy.Validate (Some (ConfigPtr (mkConfig T skip)))
       = Some (fmt_Errorf "invalid timeout: %d (must be between 1 and 30)"
                 [ArgInt T])))
  /\
  (forall (T : Z) (skip : bool) (dflt : Config) m jsonBytes,
      conf_Unmarshal None zeroConfig = (dflt, None) ->
      json_Marshal m = Ok jsonBytes ->
      json_Unmarshal jsonBytes dflt = (mkConfig T skip, None) ->
      (Legacy.Validate (Some (StringMap m)) = None <-> 1 <= T <= 30) /\
      (~ 1 <= T <= 30 ->
       Legacy.Validate (Some (StringMap m))
       = Some (fmt_Errorf "invalid timeout: %d (must be between 1 and 30)"
                 [ArgInt T]))).
Proof.
  split; [|split].
  - intros T skip o Hdec. unfold Current.Validate. rewrite Hdec.
    cbn [Timeout].
    destruct ((T <? 1) || (30 <? T)) eqn:Hchk.
    + split; [split; [discriminate|]|reflexivity].
      intros Hin. apply range_check in Hin. congruence.
    + apply range_check in Hchk. split; [tauto|]. intros Hout. tauto.
  - intros T skip dflt Hdflt. unfold Legacy.Validate. rewrite Hdflt.
    cbn [Timeout].
    destruct ((T <? 1) || (30 <? T)) eqn:Hchk.
    + split; [split; [discriminate|]|reflexivity].
      intros Hin. apply range_check in Hin. congruence.
    + apply range_check in Hchk. split; [tauto|]. intros Hout. tauto.
  - intros T skip dflt m jsonBytes Hdflt Hm Hu. unfold Legacy.Validate.
    rewrite Hdflt, Hm, Hu. cbn [Timeout].
    destruct ((T <? 1) || (30 <? T)) eqn:Hchk.
    + split; [split; [discriminate|]|reflexivity].
      intros Hin. apply range_check in Hin. congruence.
    + apply range_check in Hchk. split; [tauto|]. intros Hout. tauto.
Qed.

End ValidateProps.

Lemma Validate_accepts_iff_in_range_witness :
  @Current.Validate sample (Some (ConfigPtr (mkConfig 30 false))) = None
  /\ @Current.Validate sample (Some (ConfigPtr (mkConfig 45 false)))
     = Some (fmt_Errorf
               "Plugins.Segi9.Timeout: value %d is out of the allowed range [1..30]"
               [ArgInt 45])
  /\ @Legacy.Validate sample (Some (ConfigPtr (mkConfig 1 true))) = None
  /\ @Legacy.Validate sample (Some (ConfigPtr (mkConfig 0 true)))
     = Some (fmt_Errorf "invalid timeout: %d (must be between 1 and 30)"
               [ArgInt 0]).
Proof.
  destruct (@Validate_accepts_iff_in_range sample) as [Hcur [Hleg _]].
  split; [|split; [|split]].
  - apply (Hcur 30 false (ConfigPtr (mkConfig 30 false))); [reflexivity | lia].
  - apply (Hcur 45 false (ConfigPtr (mkConfig 45 false))); [reflexivity | lia].
  - apply (Hleg 1 true (mkConfig 10 false)); [reflexivity | lia].
  - apply (Hleg 0 true (mkConfig 10 false)); [reflexivity | lia].
Defined.

(** ** Request path: shape of a run *)

Section RunShape.
Context `{Externals}.

Lemma Current_applyAuth_frame authType user pass req req' :
  Current.applyAuth authType user pass req = Ok req' ->
  Method req' = Method req /\ URL req' = URL req /\
  forall k, k <> "Authorization" -> Header req' !! k = Header req !! k.
Proof.
  unfold Current.applyAuth, SetBasicAuth, Header_Set.
  repeat match goal with
         | |- context [if ?b then _ else _] => destruct b
         end;
    intros Heq; inversion Heq; subst; cbn [Method URL Header];
    repeat split; try reflexivity;
    intros k Hk; rewrite lookup_insert_ne by congruence; reflexivity.
Qed.

Lemma Legacy_applyAuth_frame authType user pass req req' :
  Legacy.applyAuth authType user pass req = Ok req' ->
  Method req' = Method req /\ URL req' = URL req /\
  forall k, k <> "Authorization" -> Header req' !! k = Header req !! k.
Proof.
  unfold Legacy.applyAuth, SetBasicAuth, Header_Set.
  repeat match goal with
         | |- context [if ?b then _ else _] => destruct b
         end;
    intros Heq; inversion Heq; subst; cbn [Method URL Header];
    repeat split; try reflexivity;
    intros k Hk; rewrite lookup_insert_ne by congruence; reflexivity.
Qed.

(** What [doRequest] hands to [client.Do]: nothing when the request cannot
    be built or the authentication switch rejects, one call otherwise. *)
Lemma Current_doRequest_sent (p : Plugin) url authType user pass :
  sent (Current.doRequest p url authType user pass)
  = match http_NewRequest http_MethodGet url with
    | Some _ => []
    | None =>
        match Current.applyAuth authType user pass (currentRequest url) with
        | Err _ => []
        | Ok req => [(currentClient p, req)]
        end
    end.
Proof.
  unfold Current.doRequest, currentRequest, currentClient.
  destruct (http_NewRequest http_MethodGet url); [reflexivity|].
  destruct (Current.applyAuth _ _ _ _) as [req|e]; [|reflexivity].
  destruct (client_Do _ req) as [resp|err]; [|reflexivity].
  destruct (Body resp); reflexivity.
Qed.

(** A rejection by the authentication switch is what [doRequest] returns. *)
Lemma Current_doRequest_auth_rejected (p : Plugin) url authType user pass e :
  http_NewRequest http_MethodGet url = None ->
  Current.applyAuth authType user pass (currentRequest url) = Err e ->
  Current.doRequest p url authType user pass = mkRun [] (Err e).
Proof.
  intros Hnew Hauth. unfold Current.doRequest.
  rewrite Hnew. fold (currentRequest url). rewrite Hauth. reflexivity.
Qed.


(** Where nothing was handed to [client.Do], the run ended in an error. *)
Lemma Current_doRequest_silent_fails (p : Plugin) url authType user pass :
  sent (Current.doRequest p url authType user pass) = [] ->
  exists e, returned (Current.doRequest p url authType user pass) = Err e.
Proof.
  unfold Current.doRequest.
  destruct (http_NewRequest http_MethodGet url); [eauto|].
  destruct (Current.applyAuth _ _ _ _) as [req|e]; [|eauto].
  destruct (client_Do _ req) as [resp|err]; [|discriminate].
  destruct (Body resp); discriminate.
Qed.

End RunShape.

(** ** Request path: [Export] *)

Section ExportProps.
Context `{Externals}.

(** Reading a parameter behind its length guard is reading it with the
    empty string as the value of a missing one. *)
Lemma guarded_nth (i : nat) (params : list string) :
  (if (i <? length params)%nat then nth i params "" else "") = nth i params "".
Proof.
  destruct (i <? length params)%nat eqn:Hl; [reflexivity|].
  apply Nat.ltb_ge in Hl. symmetry. apply nth_overflow. exact Hl.
Qed.

(** With the right key and a URL, the current [Export] is [doRequest] on the
    trimmed URL, the mode it settled on and the two credentials. *)
Lemma Current_Export_served (p : Plugin) (params : list string) :
  params <> [] ->
  TrimSpace (nth 0 params "") <> "" ->
  Current.Export p "segi9.http" params
  = Current.doRequest p (TrimSpace (nth 0 params ""))
      (currentAuthType params) (nth 2 params "") (nth 3 params "").
Proof.
  intros Hlen Hurl. unfold Current.Export, currentAuthType.
  rewrite !guarded_nth.
  cbn [String.eqb Ascii.eqb Bool.eqb negb].
  apply String.eqb_neq in Hurl. rewrite Hurl.
  destruct params as [|u ps]; [congruence|]. reflexivity.
Qed.

(** Any other key stops the current [Export] before it reads a parameter. *)
Lemma Current_Export_other_key (p : Plugin) (key : string)
    (params : list string) :
  key <> "segi9.http" ->
  Current.Export p key params
  = mkRun [] (Err (errs_Errorf "unsupported key: %q" [ArgString key])).
Proof.
  intros Hkey. unfold Current.Export.
  apply String.eqb_neq in Hkey. rewrite Hkey. reflexivity.
Qed.

(** An empty or blank URL parameter stops the current [Export] at once. *)
Lemma Current_Export_blank_url (p : Plugin) (params : list string) :
  params = [] \/ TrimSpace (nth 0 params "") = "" ->
  Current.Export p "segi9.http" params
  = mkRun []
      (Err (fmt_Errorf
              "segi9.http: the first parameter (url) is required and cannot be empty"
              [])).
Proof.
  intros Hblank. unfold Current.Export.
  cbn [String.eqb Ascii.eqb Bool.eqb negb].
  destruct Hblank as [-> | Hurl]; [reflexivity|].
  rewrite Hurl. rewrite orb_true_r. reflexivity.
Qed.

(** In particular for a URL made of ASCII white space only. *)
Lemma Current_Export_space_url (p : Plugin) (url : string) rest :
  Forall (fun c => asciiSpace c = true) (list_ascii_of_string url) ->
  sent (Current.Export p "segi9.http" (url :: rest)) = []
  /\ returned (Current.Export p "segi9.http" (url :: rest))
     = Err (fmt_Errorf
              "segi9.http: the first parameter (url) is required and cannot be empty"
              []).
Proof.
  intros Hsp. rewrite Current_Export_blank_url; [split; reflexivity|].
  right. cbn [nth]. apply TrimSpace_all_space, Hsp.
Qed.

(** What the legacy [Export] hands to [client.Do]. *)
Lemma Legacy_Export_sent (p : Plugin) key (params : list string) :
  sent (Legacy.Export p key params)
  = if (length params <? 1)%nat then []
    else if String.eqb (nth 0 params "") "" then []
    else
      match http_NewRequest "GET" (nth 0 params "") with
      | Some _ => []
      | None =>
          match Legacy.applyAuth (legacyAuthType params)
                  (nth 2 params "") (nth 3 params "")
                  (legacyRequest (nth 0 params "")) with
          | Err _ => []
          | Ok req => [(legacyClient p, req)]
          end
      end.
Proof.
  unfold Legacy.Export, legacyAuthType, legacyRequest, legacyClient.
  destruct (length params <? 1)%nat; [reflexivity|].
  destruct (String.eqb (nth 0 params "") ""); [reflexivity|].
  destruct (http_NewRequest "GET" (nth 0 params "")); [reflexivity|].
  rewrite !guarded_nth.
  destruct (Legacy.applyAuth _ _ _ _) as [req|e]; [|reflexivity].
  destruct (client_Do _ req) as [resp|err]; [|reflexivity].
  destruct (Body resp); reflexivity.
Qed.

(** C10: for every key other than "segi9.http" the current [Export] returns
    the error naming that key; the parameters are not looked at (the result
    is the same for all of them) and nothing is handed to [client.Do]. *)
Theorem Export_unsupported_key (p : Plugin) (key : string)
    (params : list string) :
  key <> "segi9.http" ->
  Current.Export p key params
  = mkRun [] (Err (errs_Errorf "unsupported key: %q" [ArgString key])).
Proof. apply Current_Export_other_key. Qed.


End ExportProps.

(** The ways the current [Export] can stop early, and the one way it goes
    on to [doRequest]: each tactic rewrites the call accordingly, case by
    case; the first is for the right key, the second for any key. *)
Ltac export_url_cases params :=
  let Hne := fresh "Hne" in
  let Hu := fresh "Hu" in
  destruct (decide (params = [])) as [->|Hne];
  [ rewrite Current_Export_blank_url by (left; reflexivity)
  | destruct (String.string_dec (TrimSpace (nth 0 params "")) "") as [Hu|Hu];
    [ rewrite Current_Export_blank_url by (right; exact Hu)
    | rewrite Current_Export_served by assumption ] ].

Ltac export_cases key params :=
  let Hkey := fresh "Hkey" in
  destruct (String.string_dec key "segi9.http") as [->|Hkey];
  [ export_url_cases params
  | rewrite Current_Export_other_key by exact Hkey ].

Lemma Export_unsupported_key_witness :
  "segi9.ping" <> "segi9.http"
  /\ @Current.Export sample (mkPlugin (mkConfig 10 false)) "segi9.ping"
       ["https://example.test/status"]
     = mkRun [] (Err (errs_Errorf "unsupported key: %q"
                        [ArgString "segi9.ping"])).
Proof.
  split; [discriminate|].
  apply (@Export_unsupported_key sample). discriminate.
Defined.


(** ** Authentication dispatch *)

Section AuthProps.
Context `{Externals}.

Lemma Authorization_after_Set (v : string) (req : Request) :
  Header (Header_Set "Authorization" v req) !! "Authorization" = Some v.
Proof. unfold Header_Set. cbn [Header]. apply lookup_insert_eq. Qed.

Lemma Authorization_after_SetBasicAuth (user pass : string) (req : Request) :
  Header (SetBasicAuth user pass req) !! "Authorization"
  = Some ("Basic " ++ base64 (user ++ ":" ++ pass)).
Proof. apply Authorization_after_Set. Qed.

Lemma Current_applyAuth_basic authType user pass req :
  ToLower authType = "basic" ->
  Current.applyAuth authType user pass req = Ok (SetBasicAuth user pass req).
Proof. intros Hm. unfold Current.applyAuth. rewrite Hm. reflexivity. Qed.

Lemma Current_applyAuth_bearer authType user pass req :
  ToLower authType = "bearer" ->
  Current.applyAuth authType user pass req
  = if String.eqb user "" then
      Err (fmt_Errorf
             "auth_type 'bearer' requires a token in the third parameter (user)"
             [])
    else Ok (Header_Set "Authorization" ("Bearer " ++ user) req).
Proof. intros Hm. unfold Current.applyAuth. rewrite Hm. reflexivity. Qed.



(** A mode parameter that is not empty is the one the legacy [Export]
    lower-cases and switches on. *)
Lemma legacyAuthType_given (params : list string) :
  nth 1 params "" <> "" ->
  legacyAuthType params = ToLower (nth 1 params "").
Proof.
  intros Hne. unfold legacyAuthType.
  assert (Hlen : (1 <? length params)%nat = true).
  { apply Nat.ltb_lt. destruct (Nat.lt_ge_cases 1 (length params)) as [|Hge];
      [assumption|]. exfalso. apply Hne. apply nth_overflow. exact Hge. }
  rewrite Hlen. apply String.eqb_neq in Hne. rewrite Hne. reflexivity.
Qed.

(** A mode parameter with something left after trimming is the one the
    current [Export] passes on, trimmed. *)
Lemma currentAuthType_given (params : list string) :
  TrimSpace (nth 1 params "") <> "" ->
  currentAuthType params = TrimSpace (nth 1 params "").
Proof.
  intros Hne. unfold currentAuthType.
  assert (Hlen : (1 <? length params)%nat = true).
  { apply Nat.ltb_lt. destruct (Nat.lt_ge_cases 1 (length params)) as [|Hge];
      [assumption|]. exfalso. apply Hne.
    rewrite nth_overflow by exact Hge. reflexivity. }
  rewrite Hlen. apply String.eqb_neq in Hne. rewrite Hne. reflexivity.
Qed.

(** *** Bearer mode in the current plugin *)

(** Without a token nothing is handed to [client.Do] and an error comes
    back: the bearer rejection, when the request could be built at all. *)
Lemma Current_bearer_without_token (p : Plugin) url authType pass :
  ToLower authType = "bearer" ->
  sent (Current.doRequest p url authType "" pass) = []
  /\ (exists e, returned (Current.doRequest p url authType "" pass) = Err e)
  /\ (http_NewRequest http_MethodGet url = None ->
      returned (Current.doRequest p url authType "" pass)
      = Err (fmt_Errorf
               "auth_type 'bearer' requires a token in the third parameter (user)"
               [])).
Proof.
  intros Hm.
  assert (Hsent : sent (Current.doRequest p url authType "" pass) = []).
  { rewrite Current_doRequest_sent, (Current_applyAuth_bearer _ _ _ _ Hm).
    destruct (http_NewRequest http_MethodGet url); reflexivity. }
  split; [exact Hsent|]. split.
  - apply Current_doRequest_silent_fails, Hsent.
  - intros Hnew.
    rewrite (Current_doRequest_auth_rejected p url authType "" pass _ Hnew
               (Current_applyAuth_bearer _ _ _ _ Hm)).
    reflexivity.
Qed.

(** With a token, whatever is handed to [client.Do] carries
    [Authorization: Bearer <token>], and the request that can be built is
    handed over. *)
Lemma Current_bearer_with_token (p : Plugin) url authType user pass :
  ToLower authType = "bearer" ->
  user <> "" ->
  sent (Current.doRequest p url authType user pass)
  = match http_NewRequest http_MethodGet url with
    | Some _ => []
    | None =>
        [(currentClient p,
          Header_Set "Authorization" ("Bearer " ++ user) (currentRequest url))]
    end
  /\ Forall (fun call : Client * Request =>
               Header (snd call) !! "Authorization" = Some ("Bearer " ++ user))
       (sent (Current.doRequest p url authType user pass)).
Proof.
  intros Hm Hu.
  rewrite Current_doRequest_sent, (Current_applyAuth_bearer _ _ _ _ Hm).
  apply String.eqb_neq in Hu. rewrite Hu.
  destruct (http_NewRequest http_MethodGet url); split; try reflexivity.
  - constructor.
  - constructor; [apply Authorization_after_Set | constructor].
Qed.

(** The secret plays no part in bearer mode. *)
Lemma Current_bearer_ignores_secret (p : Plugin) url authType user pass pass' :
  ToLower authType = "bearer" ->
  Current.doRequest p url authType user pass
  = Current.doRequest p url authType user pass'.
Proof.
  intros Hm. unfold Current.doRequest.
  rewrite !(Current_applyAuth_bearer _ _ _ _ Hm). reflexivity.
Qed.

(** C2, at the legacy [Export]: bearer mode with an empty token must be
    refused before anything is handed to [client.Do].  The legacy copy has
    no such check: with the token parameter missing or empty it hands over
    a request whose header is [Authorization: Bearer ] with nothing
    after it. *)
Theorem Legacy_Export_bearer_empty_token (p : Plugin) (key url mode : string) :
  url <> "" ->
  mode <> "" ->
  ToLower mode = "bearer" ->
  http_NewRequest "GET" url = None ->
  sent (Legacy.Export p key [url; mode])
  = [(legacyClient p, Header_Set "Authorization" "Bearer " (legacyRequest url))]
  /\ sent (Legacy.Export p key [url; mode; ""; ""])
     = [(legacyClient p,
         Header_Set "Authorization" "Bearer " (legacyRequest url))].
Proof.
  intros Hurl Hmode Hlow Hnew.
  apply String.eqb_neq in Hurl.
  split; rewrite Legacy_Export_sent; cbn [length Nat.ltb Nat.leb nth];
    rewrite Hurl, Hnew, legacyAuthType_given by exact Hmode;
    cbn [nth]; rewrite Hlow; reflexivity.
Qed.

End AuthProps.

Lemma Legacy_Export_bearer_empty_token_witness :
  sent (@Legacy.Export sample (mkPlugin (mkConfig 10 false)) "segi9.http"
          ["https://example.test/data"; "bearer"])
  = [(legacyClient (mkPlugin (mkConfig 10 false)),
      Header_Set "Authorization" "Bearer "
        (legacyRequest "https://example.test/data"))].
Proof.
  apply (@Legacy_Export_bearer_empty_token sample
           (mkPlugin (mkConfig 10 false)) "segi9.http"
           "https://example.test/data" "bearer");
    [discriminate | discriminate | reflexivity | reflexivity].
Defined.

Section DispatchClaims.
Context `{Externals}.

(** C9: in basic mode every request handed to [client.Do] carries the
    Basic credential built from the principal and the secret,
    [Authorization: Basic base64(user:pass)], for every secret (the empty
    one included), and the request that can be built is handed over: by
    [doRequest] and the [Export] in front of it, and by the legacy
    [Export]. *)
Theorem basic_credentials_attached :
  (forall (p : Plugin) (url authType user pass : string),
      ToLower authType = "basic" ->
      sent (Current.doRequest p url authType user pass)
      = match http_NewRequest http_MethodGet url with
        | Some _ => []
        | None => [(currentClient p, SetBasicAuth user pass (currentRequest url))]
        end
      /\ Forall (fun call : Client * Request =>
                   Header (snd call) !! "Authorization"
                   = Some ("Basic " ++ base64 (user ++ ":" ++ pass)))
           (sent (Current.doRequest p url authType user pass)))
  /\
  (forall (p : Plugin) (params : list string),
      ToLower (TrimSpace (nth 1 params "")) = "basic" ->
      Forall (fun call : Client * Request =>
                Header (snd call) !! "Authorization"
                = Some ("Basic "
                        ++ base64 (nth 2 params "" ++ ":" ++ nth 3 params "")))
        (sent (Current.Export p "segi9.http" params)))
  /\
  (forall (p : Plugin) (key : string) (params : list string),
      nth 1 params "" <> "" ->
      ToLower (nth 1 params "") = "basic" ->
      sent (Legacy.Export p key params)
      = (if String.eqb (nth 0 params "") "" then []
         else match http_NewRequest "GET" (nth 0 params "") with
              | Some _ => []
              | None =>
                  [(legacyClient p,
                    SetBasicAuth (nth 2 params "") (nth 3 params "")
                      (legacyRequest (nth 0 params "")))]
              end)
      /\ Forall (fun call : Client * Request =>
                   Header (snd call) !! "Authorization"
                   = Some ("Basic "
                           ++ base64 (nth 2 params "" ++ ":" ++ nth 3 params "")))
           (sent (Legacy.Export p key params))).
Proof.
  assert (Hcur : forall (p : Plugin) (url authType user pass : string),
      ToLower authType = "basic" ->
      sent (Current.doRequest p url authType user pass)
      = match http_NewRequest http_MethodGet url with
        | Some _ => []
        | None => [(currentClient p, SetBasicAuth user pass (currentRequest url))]
        end
      /\ Forall (fun call : Client * Request =>
                   Header (snd call) !! "Authorization"
                   = Some ("Basic " ++ base64 (user ++ ":" ++ pass)))
           (sent (Current.doRequest p url authType user pass))).
  { intros p url authType user pass Hm.
    rewrite Current_doRequest_sent, (Current_applyAuth_basic _ _ _ _ Hm).
    destruct (http_NewRequest http_MethodGet url); split; try reflexivity.
    - constructor.
    - constructor; [apply Authorization_after_SetBasicAuth | constructor]. }
  split; [exact Hcur|]. split.
  - intros p params Hm.
    export_url_cases params; try (cbn [sent]; constructor).
    apply Hcur. rewrite currentAuthType_given; [exact Hm|].
    intros He. rewrite He in Hm. discriminate Hm.
  - intros p key params Hne Hm.
    rewrite Legacy_Export_sent, legacyAuthType_given by exact Hne.
    assert (Hlen : (length params <? 1)%nat = false).
    { apply Nat.ltb_ge. destruct params; [contradiction Hne; reflexivity|].
      simpl. lia. }
    rewrite Hlen. unfold Legacy.applyAuth. rewrite Hm.
    cbn [String.eqb Ascii.eqb Bool.eqb].
    destruct (String.eqb (nth 0 params "") ""); [split; [reflexivity|constructor]|].
    destruct (http_NewRequest "GET" (nth 0 params "")); split;
      try reflexivity.
    + constructor.
    + constructor; [apply Authorization_after_SetBasicAuth | constructor].
Qed.


End DispatchClaims.

Lemma basic_credentials_attached_witness :
  @ToLower sample "Basic" = "basic"
  /\ sent (@Current.doRequest sample (mkPlugin (mkConfig 10 false))
             "https://example.test/secure" "Basic" "admin" "")
     = [(currentClient (mkPlugin (mkConfig 10 false)),
         SetBasicAuth "admin" "" (currentRequest "https://example.test/secure"))]
  /\ Forall (fun call : Client * Request =>
               Header (snd call) !! "Authorization" = Some "Basic YWRtaW46")
       (sent (@Current.doRequest sample (mkPlugin (mkConfig 10 false))
                "https://example.test/secure" "Basic" "admin" "")).
Proof.
  split; [reflexivity|].
  exact (proj1 (@basic_credentials_attached sample)
           (mkPlugin (mkConfig 10 false)) "https://example.test/secure"
           "Basic" "admin" "" eq_refl).
Defined.



(** ** The response *)

Section ResponseProps.
Context `{Externals}.

(** C6: whenever [client.Do] answers the call with a response, of whatever
    status line and status code, whose body reads in full as [body], the
    run returns [body] itself as its success value: in [doRequest], in the
    [Export] in front of it and in the legacy [Export]. *)
Theorem body_returned_for_every_status :
  (forall (p : Plugin) (url authType user pass : string)
          (c : Client) (req : Request) (status : string) (code : Z)
          (body : string),
      sent (Current.doRequest p url authType user pass) = [(c, req)] ->
      client_Do c req = Ok (mkResponse status code (Ok body)) ->
      returned (Current.doRequest p url authType user pass) = Ok body)
  /\
  (forall (p : Plugin) (key : string) (params : list string)
          (c : Client) (req : Request) (status : string) (code : Z)
          (body : string),
      sent (Current.Export p key params) = [(c, req)] ->
      client_Do c req = Ok (mkResponse status code (Ok body)) ->
      returned (Current.Export p key params) = Ok body)
  /\
  (forall (p : Plugin) (key : string) (params : list string)
          (c : Client) (req : Request) (status : string) (code : Z)
          (body : string),
      sent (Legacy.Export p key params) = [(c, req)] ->
      client_Do c req = Ok (mkResponse status code (Ok body)) ->
      returned (Legacy.Export p key params) = Ok body).
Proof.
  assert (Hcur : forall (p : Plugin) (url authType user pass : string)
          (c : Client) (req : Request) (status : string) (code : Z)
          (body : string),
      sent (Current.doRequest p url authType user pass) = [(c, req)] ->
      client_Do c req = Ok (mkResponse status code (Ok body)) ->
      returned (Current.doRequest p url authType user pass) = Ok body).
  { intros p url authType user pass c req status code body.
    unfold Current.doRequest.
    destruct (http_NewRequest http_MethodGet url); [discriminate|].
    destruct (Current.applyAuth _ _ _ _) as [r|e]; [|discriminate].
    destruct (client_Do _ r) as [resp|err] eqn:Hdo.
    - destruct (Body resp) as [b|err] eqn:Hbody; cbn [sent returned];
        intros Hs Hd; inversion Hs; subst; rewrite Hdo in Hd;
        inversion Hd; subst; cbn [Body] in Hbody; congruence.
    - cbn [sent]. intros Hs Hd. inversion Hs; subst. congruence. }
  split; [exact Hcur|]. split.
  - intros p key params c req status code body.
    export_cases key params; try discriminate. apply Hcur.
  - intros p key params c req status code body.
    unfold Legacy.Export.
    destruct (length params <? 1)%nat; [discriminate|].
    destruct (String.eqb (nth 0 params "") ""); [discriminate|].
    destruct (http_NewRequest "GET" (nth 0 params "")); [discriminate|].
    destruct (Legacy.applyAuth _ _ _ _) as [r|e]; [|discriminate].
    destruct (client_Do _ r) as [resp|err] eqn:Hdo.
    + destruct (Body resp) as [b|err] eqn:Hbody; cbn [sent returned];
        intros Hs Hd; inversion Hs; subst; rewrite Hdo in Hd;
        inversion Hd; subst; cbn [Body] in Hbody; congruence.
    + cbn [sent]. intros Hs Hd. inversion Hs; subst. congruence.
Qed.

End ResponseProps.

Lemma body_returned_for_every_status_witness :
  returned (@Current.doRequest sample (mkPlugin (mkConfig 10 false))
              "https://example.test/status" "none" "" "")
  = Ok "down"
  /\ returned (@Legacy.Export sample (mkPlugin (mkConfig 10 false))
                 "segi9.http" ["https://example.test/status"])
     = Ok "down".
Proof.
  split.
  - apply (proj1 (@body_returned_for_every_status sample)
             (mkPlugin (mkConfig 10 false)) "https://example.test/status"
             "none" "" ""
             (currentClient (mkPlugin (mkConfig 10 false)))
             (currentRequest "https://example.test/status")
             "503 Service Unavailable" 503 "down"); reflexivity.
  - apply (proj2 (proj2 (@body_returned_for_every_status sample))
             (mkPlugin (mkConfig 10 false)) "segi9.http"
             ["https://example.test/status"]
             (legacyClient (mkPlugin (mkConfig 10 false)))
             (legacyRequest "https://example.test/status")
             "503 Service Unavailable" 503 "down"); reflexivity.
Defined.

(** ** The client and the outgoing request *)

Section ClientProps.
Context `{Externals}.

(** Every call the current plugin hands to [client.Do] is a GET for the
    given URL with the plugin's user agent and [Accept: */*], through a
    client whose deadline is the resolved timeout and whose TLS switch is
    the snapshot's flag. *)
Lemma Current_outgoing_request (p : Plugin) url authType user pass :
  Forall (fun call : Client * Request =>
            Method (snd call) = "GET"
            /\ URL (snd call) = url
            /\ Header (snd call) !! "User-Agent" = Some "Zabbix-Plugin-Segi9/1.0"
            /\ Header (snd call) !! "Accept" = Some "*/*"
            /\ Client_Timeout (fst call) = Current.resolveTimeout p
            /\ InsecureSkipVerify (fst call) = SkipVerify (config p))
    (sent (Current.doRequest p url authType user pass)).
Proof.
  rewrite Current_doRequest_sent.
  destruct (http_NewRequest http_MethodGet url); [constructor|].
  destruct (Current.applyAuth _ _ _ _) as [req|e] eqn:Hauth; [|constructor].
  apply Current_applyAuth_frame in Hauth. destruct Hauth as (Hm & Hu & Hh).
  constructor; [|constructor]. cbn [fst snd].
  rewrite Hm, Hu, !Hh by discriminate.
  repeat split; reflexivity.
Qed.

(** The same through the current [Export]. *)
Lemma Current_Export_outgoing_request (p : Plugin) key params :
  Forall (fun call : Client * Request =>
            Method (snd call) = "GET"
            /\ Header (snd call) !! "User-Agent" = Some "Zabbix-Plugin-Segi9/1.0"
            /\ Header (snd call) !! "Accept" = Some "*/*"
            /\ Client_Timeout (fst call) = Current.resolveTimeout p
            /\ InsecureSkipVerify (fst call) = SkipVerify (config p))
    (sent (Current.Export p key params)).
Proof.
  export_cases key params; try (cbn [sent]; constructor).
  eapply List.Forall_impl; [|apply Current_outgoing_request].
  cbn beta. intros call (Hm & _ & Hrest). split; assumption.
Qed.

(** C8, at the legacy [Export]: every outgoing request must carry the
    plugin's user agent and [Accept: */*].  The legacy copy builds the GET
    with the resolved timeout and the TLS flag, but the only header it sets
    before authentication is [Content-Type: application/json]: the request
    it hands over has no [User-Agent] and no [Accept] entry. *)
Theorem Legacy_Export_plain_headers (p : Plugin) (key url : string) :
  url <> "" ->
  http_NewRequest "GET" url = None ->
  sent (Legacy.Export p key [url]) = [(legacyClient p, legacyRequest url)]
  /\ Method (legacyRequest url) = "GET"
  /\ Header (legacyRequest url) !! "User-Agent" = None
  /\ Header (legacyRequest url) !! "Accept" = None
  /\ Header (legacyRequest url) !! "Content-Type" = Some "application/json".
Proof.
  intros Hurl Hnew. apply String.eqb_neq in Hurl.
  split; [|repeat split; reflexivity].
  rewrite Legacy_Export_sent. cbn [length Nat.ltb Nat.leb nth].
  rewrite Hurl, Hnew. reflexivity.
Qed.

(** The safety net of the current [doRequest]: whatever the snapshot
    holds, the timeout it resolves is strictly positive. *)
Lemma Current_resolveTimeout_positive (p : Plugin) :
  0 < Current.resolveTimeout p.
Proof.
  unfold Current.resolveTimeout.
  destruct (seconds (Timeout (config p)) <=? 0) eqn:Hle.
  - rewrite seconds_10. lia.
  - apply Z.leb_gt in Hle. exact Hle.
Qed.









End ClientProps.

Lemma Legacy_Export_plain_headers_witness :
  sent (@Legacy.Export sample (mkPlugin (mkConfig 10 false)) "segi9.http"
          ["https://example.test/status"])
  = [(legacyClient (mkPlugin (mkConfig 10 false)),
      legacyRequest "https://example.test/status")]
  /\ Header (legacyRequest "https://example.test/status") !! "Accept" = None.
Proof.
  destruct (@Legacy_Export_plain_headers sample (mkPlugin (mkConfig 10 false))
              "segi9.http" "https://example.test/status")
    as (Hsent & _ & _ & Hacc & _); [discriminate | reflexivity |].
  split; [exact Hsent | exact Hacc].
Defined.


(** A positive snapshot can still resolve to no deadline in the legacy
    plugin: its [Configure] has no upper bound, so it can store a timeout
    whose conversion to nanoseconds wraps around; 2^55 seconds becomes a
    duration of 0.  The current [Configure] stores at most 30. *)
Example Legacy_unbounded_timeout_wraps :
  Timeout (config (@Legacy.Configure sample (mkPlugin zeroConfig) None
                     (Some (ConfigPtr (mkConfig (2 ^ 55) false)))))
  = 2 ^ 55
  /\ Legacy.resolveTimeout
       (@Legacy.Configure sample (mkPlugin zeroConfig) None
          (Some (ConfigPtr (mkConfig (2 ^ 55) false))))
     = 0.
Proof. split; reflexivity. Qed.

(** ** From the store to the client, and the scenarios of the specification *)

Section Reachable.
Context `{Externals}.

(** After any [Configure] of the current plugin the client's deadline is
    the stored number of seconds, between 1 and 30. *)
Lemma Current_timeout_after_Configure (p : Plugin) global options :
  let p' := Current.Configure p global options in
  Current.resolveTimeout p' = Timeout (config p') * time_Second
  /\ 1 * time_Second <= Current.resolveTimeout p' <= 30 * time_Second.
Proof.
  cbn zeta.
  pose proof (Current_Configure_in_range p global options) as Hr.
  unfold Current.resolveTimeout. rewrite seconds_exact by lia.
  unfold time_Second.
  destruct (_ <=? 0) eqn:Hle; [apply Z.leb_le in Hle; lia|]. lia.
Qed.

(** Bearer mode through the current [Export]: no token, no call. *)
Lemma Current_Export_bearer_without_token (p : Plugin) key params :
  ToLower (TrimSpace (nth 1 params "")) = "bearer" ->
  nth 2 params "" = "" ->
  sent (Current.Export p key params) = []
  /\ exists e, returned (Current.Export p key params) = Err e.
Proof.
  intros Hm Htok.
  export_cases key params; try (split; [reflexivity|eauto]).
  rewrite Htok.
  assert (Hgiven : TrimSpace (nth 1 params "") <> "").
  { intros He. rewrite He in Hm. discriminate Hm. }
  rewrite currentAuthType_given by exact Hgiven.
  destruct (Current_bearer_without_token p (TrimSpace (nth 0 params ""))
              (TrimSpace (nth 1 params "")) (nth 3 params "") Hm)
    as (Hs & He & _).
  split; assumption.
Qed.

(** Bearer mode through the current [Export]: the token is what goes out. *)
Lemma Current_Export_bearer_with_token (p : Plugin) key params :
  ToLower (TrimSpace (nth 1 params "")) = "bearer" ->
  nth 2 params "" <> "" ->
  Forall (fun call : Client * Request =>
            Header (snd call) !! "Authorization"
            = Some ("Bearer " ++ nth 2 params ""))
    (sent (Current.Export p key params)).
Proof.
  intros Hm Htok.
  export_cases key params; try (cbn [sent]; constructor).
  assert (Hgiven : TrimSpace (nth 1 params "") <> "").
  { intros He. rewrite He in Hm. discriminate Hm. }
  rewrite currentAuthType_given by exact Hgiven.
  apply Current_bearer_with_token; assumption.
Qed.

(** Manual mode runs with a deadline of 10 seconds and TLS verification
    switched off. *)
Lemma Current_runManual_client (url authType user pass : string) :
  Forall (fun call : Client * Request =>
            Client_Timeout (fst call) = 10 * time_Second
            /\ InsecureSkipVerify (fst call) = true)
    (sent (Current.runManual url authType user pass)).
Proof.
  unfold Current.runManual.
  eapply List.Forall_impl; [|apply Current_outgoing_request].
  cbn beta. intros call (_ & _ & _ & _ & Ht & Hs).
  rewrite Ht, Hs. split; reflexivity.
Qed.

End Reachable.

Example scenario_no_auth :
  returned (@Current.Export ok200 (mkPlugin (mkConfig 10 false)) "segi9.http"
              ["https://example.test/status"; "none"])
  = Ok "ok".
Proof. reflexivity. Qed.

Example scenario_basic :
  Forall (fun call : Client * Request =>
            Header (snd call) !! "Authorization" = Some "Basic YWRtaW46czNjcjN0")
    (sent (@Current.Export ok200 (mkPlugin (mkConfig 10 false)) "segi9.http"
             ["https://example.test/secure"; "basic"; "admin"; "s3cr3t"])).
Proof. repeat constructor. Qed.

Example scenario_bearer :
  Forall (fun call : Client * Request =>
            Header (snd call) !! "Authorization" = Some "Bearer tok123")
    (sent (@Current.Export ok200 (mkPlugin (mkConfig 10 false)) "segi9.http"
             ["https://example.test/data"; "bearer"; "tok123"])).
Proof. repeat constructor. Qed.

Example scenario_empty_url :
  @Current.Export ok200 (mkPlugin (mkConfig 10 false)) "segi9.http" [""]
  = mkRun []
      (Err (fmt_Errorf
              "segi9.http: the first parameter (url) is required and cannot be empty"
              [])).
Proof. reflexivity. Qed.

Example scenario_commit_45 :
  @Current.Validate ok200 (Some (ConfigPtr (mkConfig 45 false))) <> None
  /\ Timeout (config (@Current.Configure ok200 (mkPlugin zeroConfig) None
                        (Some (ConfigPtr (mkConfig 45 false))))) = 30.
Proof. split; [discriminate | reflexivity]. Qed.

(** * Further properties *)

(** ** Trimming *)

(** A white-space rune at the front is one, two or three bytes long. *)
Lemma leadingSpace_inv (s r : string) :
  leadingSpace s = Some r ->
  (exists c, s = String c r) \/
  (exists c d, s = String c (String d r)) \/
  (exists c d e, s = String c (String d (String e r))).
Proof.
  unfold leadingSpace. destruct s as [|c s1]; [discriminate|].
  destruct (asciiSpace c); [intros [= <-]; eauto|].
  destruct (byte c) as [|pc]; [discriminate|].
  do 8 (try destruct pc as [pc|pc|]; try discriminate);
  destruct s1 as [|d s2]; try discriminate;
  try (destruct s2 as [|e s3]; try discriminate);
  repeat match goal with
         | |- context [if ?b then _ else _] => destruct b
         end; try discriminate; intros [= <-]; eauto 10.
Qed.

Lemma trailingSpace_inv (s r : string) :
  trailingSpace s = Some r ->
  (exists c, s = String c r) \/
  (exists c d, s = String c (String d r)) \/
  (exists c d e, s = String c (String d (String e r))).
Proof.
  unfold trailingSpace. destruct s as [|c s1]; [discriminate|].
  destruct (asciiSpace c); [intros [= <-]; eauto|].
  destruct s1 as [|d s2]; [discriminate|].
  destruct (_ && _)%N; [intros [= <-]; eauto 10|].
  destruct s2 as [|e s3]; [discriminate|].
  repeat match goal with
         | |- context [if ?b then _ else _] => destruct b
         end; try discriminate; intros [= <-]; eauto 10.
Qed.

Lemma append_String (c : ascii) (a b : string) :
  String c a ++ b = String c (a ++ b).
Proof. reflexivity. Qed.

Lemma leadingSpace_app (s r t : string) :
  leadingSpace s = Some r -> leadingSpace (s ++ t) = Some (r ++ t).
Proof.
  unfold leadingSpace. destruct s as [|c s1]; [discriminate|].
  rewrite append_String.
  destruct (asciiSpace c); [intros [= <-]; reflexivity|].
  destruct (byte c) as [|pc]; [discriminate|].
  do 8 (try destruct pc as [pc|pc|]; try discriminate);
  destruct s1 as [|d s2]; try discriminate; rewrite append_String;
  try (destruct s2 as [|e s3]; try discriminate; rewrite append_String);
  repeat match goal with
         | |- context [if ?b then _ else _] => destruct b
         end; try discriminate; intros [= <-]; reflexivity.
Qed.

Lemma strip_fixed (one : string -> option string) (fuel : nat) (s : string) :
  one s = None -> strip one fuel s = s.
Proof. intros Hn. destruct fuel; [reflexivity|]. cbn [strip]. rewrite Hn. reflexivity. Qed.

Lemma strip_stable (one : string -> option string) :
  (forall s r, one s = Some r -> (String.length r < String.length s)%nat) ->
  forall fuel s, (String.length s <= fuel)%nat ->
                 one (strip one fuel s) = None.
Proof.
  intros Hdec fuel. induction fuel as [|fuel IH]; intros s Hlen.
  - cbn [strip]. destruct (one s) as [r|] eqn:Hone; [|reflexivity].
    apply Hdec in Hone. lia.
  - cbn [strip]. destruct (one s) as [r|] eqn:Hone; [|exact Hone].
    apply IH. apply Hdec in Hone. lia.
Qed.

Lemma append_assoc (a b c : string) : (a ++ b) ++ c = a ++ (b ++ c).
Proof. induction a as [|x a IH]; [reflexivity|]. rewrite !append_String, IH. reflexivity. Qed.

Lemma append_empty_r (a : string) : a ++ "" = a.
Proof. induction a as [|x a IH]; [reflexivity|]. rewrite append_String, IH. reflexivity. Qed.

Lemma length_append (a b : string) :
  String.length (a ++ b) = (String.length a + String.length b)%nat.
Proof.
  induction a as [|x a IH]; [reflexivity|].
  rewrite append_String. cbn [String.length]. rewrite IH. reflexivity.
Qed.

Lemma list_ascii_of_append (a b : string) :
  list_ascii_of_string (a ++ b) = (list_ascii_of_string a ++ list_ascii_of_string b)%list.
Proof.
  induction a as [|x a IH]; [reflexivity|].
  rewrite append_String. cbn [list_ascii_of_string]. rewrite IH. reflexivity.
Qed.

Lemma string_of_list_app (l1 l2 : list ascii) :
  string_of_list_ascii (l1 ++ l2)%list = string_of_list_ascii l1 ++ string_of_list_ascii l2.
Proof.
  induction l1 as [|x l1 IH]; [reflexivity|].
  cbn [app string_of_list_ascii]. rewrite IH. reflexivity.
Qed.

Lemma rev_string_append (a b : string) :
  rev_string (a ++ b) = rev_string b ++ rev_string a.
Proof.
  unfold rev_string. rewrite list_ascii_of_append, rev_app_distr.
  apply string_of_list_app.
Qed.

Lemma rev_string_involutive (s : string) : rev_string (rev_string s) = s.
Proof.
  unfold rev_string. rewrite list_ascii_of_string_of_list_ascii, rev_involutive.
  apply string_of_list_ascii_of_string.
Qed.

Lemma length_rev_string (s : string) : String.length (rev_string s) = String.length s.
Proof.
  induction s as [|c s IH]; [reflexivity|].
  change (String c s) with (String c "" ++ s).
  rewrite rev_string_append, !length_append, IH. simpl. lia.
Qed.

Lemma strip_suffix (one : string -> option string) :
  (forall s r, one s = Some r -> exists pre, s = pre ++ r) ->
  forall fuel s, exists pre, s = pre ++ strip one fuel s.
Proof.
  intros Hsuf fuel. induction fuel as [|fuel IH]; intros s.
  - exists "". reflexivity.
  - cbn [strip]. destruct (one s) as [r|] eqn:Hone; [|exists ""; reflexivity].
    destruct (Hsuf _ _ Hone) as [pre ->]. destruct (IH r) as [pre' Hr].
    exists (pre ++ pre'). rewrite append_assoc, <- Hr. reflexivity.
Qed.

Lemma leadingSpace_shorter (s r : string) :
  leadingSpace s = Some r -> (String.length r < String.length s)%nat.
Proof.
  intros H. apply leadingSpace_inv in H.
  destruct H as [[c ->]|[(c & d & ->)|(c & d & e & ->)]]; simpl; lia.
Qed.

Lemma trailingSpace_shorter (s r : string) :
  trailingSpace s = Some r -> (String.length r < String.length s)%nat.
Proof.
  intros H. apply trailingSpace_inv in H.
  destruct H as [[c ->]|[(c & d & ->)|(c & d & e & ->)]]; simpl; lia.
Qed.

Lemma trailingSpace_suffix (s r : string) :
  trailingSpace s = Some r -> exists pre, s = pre ++ r.
Proof.
  intros H. apply trailingSpace_inv in H.
  destruct H as [[c ->]|[(c & d & ->)|(c & d & e & ->)]].
  - exists (String c ""). reflexivity.
  - exists (String c (String d "")). reflexivity.
  - exists (String c (String d (String e ""))). reflexivity.
Qed.

(** Left trimming leaves no white-space rune at the front. *)
Lemma TrimLeft_stable (s : string) : leadingSpace (TrimLeft s) = None.
Proof. apply (strip_stable _ leadingSpace_shorter). lia. Qed.

Lemma TrimLeft_fixed (s : string) : leadingSpace s = None -> TrimLeft s = s.
Proof. apply strip_fixed. Qed.

Lemma TrimRight_fixed (s : string) :
  trailingSpace (rev_string s) = None -> TrimRight s = s.
Proof.
  intros H. unfold TrimRight. rewrite strip_fixed by exact H.
  apply rev_string_involutive.
Qed.

Lemma TrimRight_stable (s : string) :
  trailingSpace (rev_string (TrimRight s)) = None.
Proof.
  unfold TrimRight. rewrite rev_string_involutive.
  apply (strip_stable _ trailingSpace_shorter).
  rewrite length_rev_string. lia.
Qed.

(** Right trimming keeps a prefix. *)
Lemma TrimRight_prefix (s : string) : exists suf, s = TrimRight s ++ suf.
Proof.
  unfold TrimRight.
  destruct (strip_suffix _ trailingSpace_suffix (String.length s) (rev_string s))
    as [pre Hpre].
  exists (rev_string pre).
  rewrite <- rev_string_append, <- Hpre. symmetry. apply rev_string_involutive.
Qed.

Lemma TrimSpace_no_leading (s : string) : leadingSpace (TrimSpace s) = None.
Proof.
  unfold TrimSpace.
  destruct (leadingSpace (TrimRight (TrimLeft s))) as [r|] eqn:Hl; [|reflexivity].
  destruct (TrimRight_prefix (TrimLeft s)) as [suf Hsuf].
  apply (leadingSpace_app _ _ suf) in Hl. rewrite <- Hsuf in Hl.
  rewrite TrimLeft_stable in Hl. discriminate.
Qed.

(** Trimming twice is trimming once. *)
Lemma TrimSpace_idempotent (s : string) : TrimSpace (TrimSpace s) = TrimSpace s.
Proof.
  unfold TrimSpace at 1.
  rewrite (TrimLeft_fixed _ (TrimSpace_no_leading s)).
  apply TrimRight_fixed. unfold TrimSpace. apply TrimRight_stable.
Qed.

(** No white-space rune is left at the end either. *)
Lemma TrimSpace_no_trailing (s : string) :
  trailingSpace (rev_string (TrimSpace s)) = None.
Proof. unfold TrimSpace. apply TrimRight_stable. Qed.

(** ** Configuration: what is stored, and how it reaches the client *)

Section StoreProps.
Context `{Externals}.

(** X1: the current [Configure] stores the decoded [SkipVerify] and, as
    timeout, the decoded value clamped into 1..30 when that is not 0; when
    it is 0, the global timeout capped at 30 if there is a positive one,
    and 1 otherwise.  With nil options the decoded values are the defaults
    10 and false. *)
Theorem Configure_global_fallback (p : Plugin) (global : option GlobalOptions)
    (options : option Options) (decoded : Config) :
  decoded = match options with
            | Some o => fst (conf_Unmarshal (Some o) (mkConfig 10 false))
            | None => mkConfig 10 false
            end ->
  SkipVerify (config (Current.Configure p global options)) = SkipVerify decoded
  /\ (Timeout decoded <> 0 ->
      Timeout (config (Current.Configure p global options))
      = Z.min 30 (Z.max 1 (Timeout decoded)))
  /\ (Timeout decoded = 0 ->
      forall g, global = Some g -> 0 < global_Timeout g ->
      Timeout (config (Current.Configure p global options))
      = Z.min 30 (global_Timeout g))
  /\ (Timeout decoded = 0 ->
      (global = None \/ exists g, global = Some g /\ global_Timeout g <= 0) ->
      Timeout (config (Current.Configure p global options)) = 1).
Proof.
  intros ->. split.
  - destruct options as [o|]; [apply Current_Configure_SkipVerify|].
    unfold Current.Configure, setTimeout. cbn [Timeout].
    destruct global as [g|]; reflexivity.
  - rewrite Current_Configure_stores. unfold requested, clamp.
    destruct options as [o|]; cbn [fst Timeout];
      (split; [|split]).
    all: try (intros Hne; destruct global as [g|]; [|reflexivity];
              apply Z.eqb_neq in Hne; rewrite Hne; reflexivity).
    all: try (intros Hz g -> Hg; rewrite Hz; cbn [Z.eqb andb];
              apply Z.ltb_lt in Hg; rewrite Hg; lia).
    all: try (intros Hz [->|(g & -> & Hg)]; rewrite Hz; [reflexivity|];
              cbn [Z.eqb andb];
              destruct (0 <? global_Timeout g) eqn:Hlt;
              [apply Z.ltb_lt in Hlt; lia | reflexivity]).
    all: try discriminate.
Qed.

(** X2: a configuration that [Validate] accepts is committed as decoded:
    [Configure] neither falls back on the global timeout nor clamps.  In
    the legacy plugin this is shown for a [*Config] candidate. *)
Theorem Validate_then_Configure :
  (forall (p : Plugin) (global : option GlobalOptions) (o : Options),
      Current.Validate (Some o) = None ->
      config (Current.Configure p global (Some o))
      = fst (conf_Unmarshal (Some o) (mkConfig 10 false)))
  /\
  (forall (p : Plugin) (global : option GlobalOptions) (c : Config),
      Legacy.Validate (Some (ConfigPtr c)) = None ->
      config (Legacy.Configure p global (Some (ConfigPtr c))) = c).
Proof.
  split.
  - intros p global o Hok.
    destruct (Current_Validate_accepts_only_in_range o Hok) as (cfg & Hdec & Hr).
    unfold Current.Configure, setTimeout. rewrite Hdec. cbn [fst config].
    assert (Hz : (Timeout cfg =? 0) = false) by (apply Z.eqb_neq; lia).
    assert (H1 : (Timeout cfg <? 1) = false) by (apply Z.ltb_ge; lia).
    assert (H30 : (30 <? Timeout cfg) = false) by (apply Z.ltb_ge; lia).
    destruct global as [g|]; rewrite ?Hz; cbn [andb]; rewrite H1, H30;
      reflexivity.
  - intros p global c Hok. unfold Legacy.Validate in Hok.
    destruct (conf_Unmarshal None zeroConfig) as [dflt [err|]];
      [discriminate|].
    destruct ((Timeout c <? 1) || (30 <? Timeout c)) eqn:Hchk; [discriminate|].
    apply range_check in Hchk.
    unfold Legacy.Configure, Legacy.applyOptions, setTimeout. cbn [config].
    assert (Hz : (Timeout c =? 0) = false) by (apply Z.eqb_neq; lia).
    assert (H1 : (Timeout c <? 1) = false) by (apply Z.ltb_ge; lia).
    destruct global as [g|]; [destruct (0 <? global_Timeout g)|];
      rewrite ?Hz, H1; reflexivity.
Qed.

(** X3: after any [Configure] of the current plugin, every client that
    [doRequest] uses has the stored number of seconds as its deadline,
    between 1 and 30 seconds, and the stored TLS flag. *)
Theorem Configure_then_request (p : Plugin) (global : option GlobalOptions)
    (options : option Options) (url authType user pass : string) :
  Forall (fun call : Client * Request =>
            Client_Timeout (fst call)
            = Timeout (config (Current.Configure p global options))
              * time_Second
            /\ 1 * time_Second <= Client_Timeout (fst call) <= 30 * time_Second
            /\ InsecureSkipVerify (fst call)
               = SkipVerify (config (Current.Configure p global options)))
    (sent (Current.doRequest (Current.Configure p global options)
             url authType user pass)).
Proof.
  pose proof (Current_timeout_after_Configure p global options) as Ht.
  cbn zeta in Ht. destruct Ht as (Heq & Hrange).
  eapply List.Forall_impl; [|apply Current_outgoing_request].
  cbn beta. intros call (_ & _ & _ & _ & Hc & Hs).
  rewrite Hc, Hs. repeat split; try assumption; apply Hrange.
Qed.

(** X4: the legacy [Configure] never leaves a timeout below 1 in the
    store; a [*Config] candidate with a timeout of at least 1 is stored
    as it is, whatever was stored before and whatever the global options
    say, and one with a negative timeout is stored with timeout 1. *)
Theorem Legacy_Configure_floor :
  (forall (p : Plugin) (global : option GlobalOptions)
          (options : option Options),
      1 <= Timeout (config (Legacy.Configure p global options)))
  /\
  (forall (p : Plugin) (global : option GlobalOptions) (c : Config),
      1 <= Timeout c ->
      config (Legacy.Configure p global (Some (ConfigPtr c))) = c)
  /\
  (forall (p : Plugin) (global : option GlobalOptions) (c : Config),
      Timeout c < 0 ->
      config (Legacy.Configure p global (Some (ConfigPtr c)))
      = mkConfig 1 (SkipVerify c)).
Proof.
  split; [exact Legacy_Configure_lower_bound|]. split.
  - intros p global c Hc.
    unfold Legacy.Configure, Legacy.applyOptions, setTimeout. cbn [config].
    assert (Hz : (Timeout c =? 0) = false) by (apply Z.eqb_neq; lia).
    assert (H1 : (Timeout c <? 1) = false) by (apply Z.ltb_ge; lia).
    destruct global as [g|]; [destruct (0 <? global_Timeout g)|];
      rewrite ?Hz, H1; reflexivity.
  - intros p global c Hc.
    unfold Legacy.Configure, Legacy.applyOptions, setTimeout. cbn [config].
    assert (Hz : (Timeout c =? 0) = false) by (apply Z.eqb_neq; lia).
    assert (H1 : (Timeout c <? 1) = true) by (apply Z.ltb_lt; lia).
    destruct global as [g|]; [destruct (0 <? global_Timeout g)|];
      rewrite ?Hz, H1; reflexivity.
Qed.

End StoreProps.

Lemma Configure_global_fallback_witness :
  Timeout (config (@Current.Configure sample (mkPlugin zeroConfig)
                     (Some (mkGlobalOptions 45))
                     (Some (ConfigPtr (mkConfig 0 true))))) = 30
  /\ SkipVerify (config (@Current.Configure sample (mkPlugin zeroConfig)
                           (Some (mkGlobalOptions 45))
                           (Some (ConfigPtr (mkConfig 0 true))))) = true.
Proof.
  destruct (@Configure_global_fallback sample (mkPlugin zeroConfig)
              (Some (mkGlobalOptions 45))
              (Some (ConfigPtr (mkConfig 0 true))) (mkConfig 0 true) eq_refl)
    as (Hs & _ & Hg & _).
  split; [|exact Hs].
  apply (Hg eq_refl (mkGlobalOptions 45) eq_refl). reflexivity.
Defined.

Lemma Validate_then_Configure_witness :
  config (@Current.Configure sample (mkPlugin zeroConfig) None
            (Some (ConfigPtr (mkConfig 30 true)))) = mkConfig 30 true
  /\ config (@Legacy.Configure sample (mkPlugin zeroConfig)
               (Some (mkGlobalOptions 3))
               (Some (ConfigPtr (mkConfig 7 true)))) = mkConfig 7 true.
Proof.
  split.
  - apply (proj1 (@Validate_then_Configure sample) (mkPlugin zeroConfig) None
             (ConfigPtr (mkConfig 30 true))). reflexivity.
  - apply (proj2 (@Validate_then_Configure sample) (mkPlugin zeroConfig)
             (Some (mkGlobalOptions 3)) (mkConfig 7 true)). reflexivity.
Defined.

Lemma Legacy_Configure_floor_witness :
  config (@Legacy.Configure sample (mkPlugin zeroConfig) None
            (Some (ConfigPtr (mkConfig 3600 true)))) = mkConfig 3600 true
  /\ config (@Legacy.Configure sample (mkPlugin zeroConfig) None
               (Some (ConfigPtr (mkConfig (-2) true)))) = mkConfig 1 true.
Proof.
  destruct (@Legacy_Configure_floor sample) as (_ & Hkeep & Hneg).
  split.
  - apply (Hkeep (mkPlugin zeroConfig) None (mkConfig 3600 true)).
    cbn [Timeout]. lia.
  - apply (Hneg (mkPlugin zeroConfig) None (mkConfig (-2) true)).
    cbn [Timeout]. lia.
Defined.

(** ** The request path: calls, headers, failures *)

Section PathProps.
Context `{Externals}.

Lemma Legacy_Export_silent_fails (p : Plugin) key params :
  sent (Legacy.Export p key params) = [] ->
  exists e, returned (Legacy.Export p key params) = Err e.
Proof.
  unfold Legacy.Export.
  destruct (length params <? 1)%nat; [eauto|].
  destruct (String.eqb (nth 0 params "") ""); [eauto|].
  destruct (http_NewRequest "GET" (nth 0 params "")); [eauto|].
  destruct (Legacy.applyAuth _ _ _ _) as [req|e]; [|eauto].
  destruct (client_Do _ req) as [resp|err]; [|discriminate].
  destruct (Body resp); discriminate.
Qed.

Lemma Current_Export_silent_fails (p : Plugin) key params :
  sent (Current.Export p key params) = [] ->
  exists e, returned (Current.Export p key params) = Err e.
Proof.
  export_cases key params; try (cbn [returned]; eauto).
  apply Current_doRequest_silent_fails.
Qed.

Lemma Current_doRequest_one_call (p : Plugin) url authType user pass :
  (length (sent (Current.doRequest p url authType user pass)) <= 1)%nat.
Proof.
  rewrite Current_doRequest_sent.
  destruct (http_NewRequest http_MethodGet url); [cbn; lia|].
  destruct (Current.applyAuth _ _ _ _); cbn; lia.
Qed.

(** X5: one run makes at most one call of [client.Do] (nothing is ever
    retried), and a run that made none ended in an error: there is no
    success without a call.  For [doRequest], the [Export] in front of it
    and the legacy [Export]. *)
Theorem one_call_at_most :
  (forall (p : Plugin) (url authType user pass : string),
      (length (sent (Current.doRequest p url authType user pass)) <= 1)%nat
      /\ (sent (Current.doRequest p url authType user pass) = [] ->
          exists e,
            returned (Current.doRequest p url authType user pass) = Err e))
  /\
  (forall (p : Plugin) (key : string) (params : list string),
      (length (sent (Current.Export p key params)) <= 1)%nat
      /\ (sent (Current.Export p key params) = [] ->
          exists e, returned (Current.Export p key params) = Err e))
  /\
  (forall (p : Plugin) (key : string) (params : list string),
      (length (sent (Legacy.Export p key params)) <= 1)%nat
      /\ (sent (Legacy.Export p key params) = [] ->
          exists e, returned (Legacy.Export p key params) = Err e)).
Proof.
  split; [|split].
  - intros p url authType user pass.
    split; [apply Current_doRequest_one_call
           | apply Current_doRequest_silent_fails].
  - intros p key params. split; [|apply Current_Export_silent_fails].
    export_cases key params; try (cbn; lia).
    apply Current_doRequest_one_call.
  - intros p key params. split; [|apply Legacy_Export_silent_fails].
    rewrite Legacy_Export_sent.
    repeat match goal with
           | |- context [if ?b then _ else _] => destruct b
           | |- context [match ?x with _ => _ end] => destruct x
           end; cbn; lia.
Qed.

Lemma Current_applyAuth_none authType user pass req :
  ToLower authType = "none" \/ ToLower authType = "" ->
  Current.applyAuth authType user pass req = Ok req.
Proof.
  intros [Hm|Hm]; unfold Current.applyAuth; rewrite Hm; reflexivity.
Qed.

Lemma currentRequest_no_Authorization (url : string) :
  Header (currentRequest url) !! "Authorization" = None.
Proof. reflexivity. Qed.

Lemma legacyRequest_no_Authorization (url : string) :
  Header (legacyRequest url) !! "Authorization" = None.
Proof. reflexivity. Qed.

Lemma currentAuthType_omitted (params : list string) :
  TrimSpace (nth 1 params "") = "" -> currentAuthType params = "none".
Proof.
  intros Hb. unfold currentAuthType. rewrite Hb.
  cbn [String.eqb negb]. rewrite andb_false_r. reflexivity.
Qed.

Lemma legacyAuthType_omitted (params : list string) :
  nth 1 params "" = "" -> legacyAuthType params = "none".
Proof.
  intros Hb. unfold legacyAuthType. rewrite Hb.
  cbn [String.eqb negb]. rewrite andb_false_r. reflexivity.
Qed.

(** X6: with the mode [none] in any letter case, or with the mode
    parameter missing, empty or (in the current plugin) blank, no
    [Authorization] header is on any request handed to [client.Do],
    whatever the user and password parameters hold. *)
Theorem none_mode_sends_no_credentials :
  (forall (p : Plugin) (url authType user pass : string),
      ToLower authType = "none" \/ ToLower authType = "" ->
      Forall (fun call : Client * Request =>
                Header (snd call) !! "Authorization" = None)
        (sent (Current.doRequest p url authType user pass)))
  /\
  (forall (p : Plugin) (key : string) (params : list string),
      TrimSpace (nth 1 params "") = ""
      \/ ToLower (TrimSpace (nth 1 params "")) = "none" ->
      Forall (fun call : Client * Request =>
                Header (snd call) !! "Authorization" = None)
        (sent (Current.Export p key params)))
  /\
  (forall (p : Plugin) (key : string) (params : list string),
      nth 1 params "" = "" \/ ToLower (nth 1 params "") = "none" ->
      Forall (fun call : Client * Request =>
                Header (snd call) !! "Authorization" = None)
        (sent (Legacy.Export p key params))).
Proof.
  assert (Hcur : forall (p : Plugin) (url authType user pass : string),
      ToLower authType = "none" \/ ToLower authType = "" ->
      Forall (fun call : Client * Request =>
                Header (snd call) !! "Authorization" = None)
        (sent (Current.doRequest p url authType user pass))).
  { intros p url authType user pass Hm.
    rewrite Current_doRequest_sent, (Current_applyAuth_none _ _ _ _ Hm).
    destruct (http_NewRequest http_MethodGet url); repeat constructor. }
  split; [exact Hcur|]. split.
  - intros p key params Hm.
    export_cases key params; try (cbn [sent]; constructor).
    apply Hcur. destruct Hm as [Hb|Hn].
    + rewrite currentAuthType_omitted by exact Hb. left. reflexivity.
    + destruct (String.string_dec (TrimSpace (nth 1 params "")) "") as [Hb|Hb].
      * rewrite currentAuthType_omitted by exact Hb. left. reflexivity.
      * rewrite currentAuthType_given by exact Hb. left. exact Hn.
  - intros p key params Hm. rewrite Legacy_Export_sent.
    assert (Hmode : legacyAuthType params = "none").
    { destruct Hm as [Hb|Hn]; [apply legacyAuthType_omitted, Hb|].
      destruct (String.string_dec (nth 1 params "") "") as [Hb|Hb];
        [apply legacyAuthType_omitted, Hb|].
      rewrite legacyAuthType_given by exact Hb. exact Hn. }
    rewrite Hmode. unfold Legacy.applyAuth.
    cbn [String.eqb Ascii.eqb Bool.eqb].
    repeat match goal with
           | |- context [if ?b then _ else _] => destruct b
           | |- context [match ?x with _ => _ end] => destruct x
           end; repeat constructor.
Qed.

(** X7: bearer mode in the current plugin.  With an empty token
    [doRequest] makes no call and returns an error, the bearer one whenever
    the request could be built; with a token every request handed over
    carries [Authorization: Bearer <token>]; and the password has no
    influence on the run at all. *)
Theorem bearer_token_required (p : Plugin) (url authType : string) :
  ToLower authType = "bearer" ->
  (forall pass,
      sent (Current.doRequest p url authType "" pass) = []
      /\ (exists e, returned (Current.doRequest p url authType "" pass) = Err e)
      /\ (http_NewRequest http_MethodGet url = None ->
          returned (Current.doRequest p url authType "" pass)
          = Err (fmt_Errorf
                   "auth_type 'bearer' requires a token in the third parameter (user)"
                   [])))
  /\ (forall user pass,
         user <> "" ->
         Forall (fun call : Client * Request =>
                   Header (snd call) !! "Authorization"
                   = Some ("Bearer " ++ user))
           (sent (Current.doRequest p url authType user pass)))
  /\ (forall user pass pass',
         Current.doRequest p url authType user pass
         = Current.doRequest p url authType user pass').
Proof.
  intros Hm. split; [|split].
  - intros pass. apply Current_bearer_without_token, Hm.
  - intros user pass Hu.
    apply (Current_bearer_with_token p url authType user pass Hm Hu).
  - intros user pass pass'. apply Current_bearer_ignores_secret, Hm.
Qed.

(** X8: every request the current plugin hands to [client.Do] is a GET
    with [User-Agent: Zabbix-Plugin-Segi9/1.0] and [Accept: */*], through a
    client whose deadline is the resolved timeout and whose TLS switch is
    the stored flag; from [doRequest] the URL is the one it was given. *)
Theorem outgoing_request_shape :
  (forall (p : Plugin) (url authType user pass : string),
      Forall (fun call : Client * Request =>
                Method (snd call) = "GET"
                /\ URL (snd call) = url
                /\ Header (snd call) !! "User-Agent"
                   = Some "Zabbix-Plugin-Segi9/1.0"
                /\ Header (snd call) !! "Accept" = Some "*/*"
                /\ Client_Timeout (fst call) = Current.resolveTimeout p
                /\ InsecureSkipVerify (fst call) = SkipVerify (config p))
        (sent (Current.doRequest p url authType user pass)))
  /\
  (forall (p : Plugin) (key : string) (params : list string),
      Forall (fun call : Client * Request =>
                Method (snd call) = "GET"
                /\ Header (snd call) !! "User-Agent"
                   = Some "Zabbix-Plugin-Segi9/1.0"
                /\ Header (snd call) !! "Accept" = Some "*/*"
                /\ Client_Timeout (fst call) = Current.resolveTimeout p
                /\ InsecureSkipVerify (fst call) = SkipVerify (config p))
        (sent (Current.Export p key params))).
Proof.
  split.
  - exact Current_outgoing_request.
  - exact Current_Export_outgoing_request.
Qed.

End PathProps.

Lemma one_call_at_most_witness :
  length (sent (@Current.Export sample (mkPlugin (mkConfig 10 false))
                  "segi9.http" ["https://example.test/status"])) = 1%nat
  /\ exists e,
       returned (@Legacy.Export sample (mkPlugin (mkConfig 10 false))
                   "segi9.http" []) = Err e.
Proof.
  split; [reflexivity|].
  apply (proj2 (proj2 (@one_call_at_most sample))
           (mkPlugin (mkConfig 10 false)) "segi9.http" []).
  reflexivity.
Defined.

Lemma none_mode_sends_no_credentials_witness :
  sent (@Current.Export sample (mkPlugin (mkConfig 10 false)) "segi9.http"
          ["https://example.test/status"; " NONE "; "admin"; "s3cr3t"])
  = [(currentClient (mkPlugin (mkConfig 10 false)),
      currentRequest "https://example.test/status")]
  /\ Forall (fun call : Client * Request =>
               Header (snd call) !! "Authorization" = None)
       (sent (@Current.Export sample (mkPlugin (mkConfig 10 false))
                "segi9.http"
                ["https://example.test/status"; " NONE "; "admin"; "s3cr3t"])).
Proof.
  split; [reflexivity|].
  apply (proj1 (proj2 (@none_mode_sends_no_credentials sample))
           (mkPlugin (mkConfig 10 false)) "segi9.http"
           ["https://example.test/status"; " NONE "; "admin"; "s3cr3t"]).
  right. reflexivity.
Defined.

Lemma bearer_token_required_witness :
  sent (@Current.doRequest sample (mkPlugin (mkConfig 10 false))
          "https://example.test/data" "Bearer" "" "unused") = []
  /\ Forall (fun call : Client * Request =>
               Header (snd call) !! "Authorization" = Some "Bearer tok123")
       (sent (@Current.doRequest sample (mkPlugin (mkConfig 10 false))
                "https://example.test/data" "Bearer" "tok123" "unused")).
Proof.
  destruct (@bearer_token_required sample (mkPlugin (mkConfig 10 false))
              "https://example.test/data" "Bearer" eq_refl)
    as (Hnone & Hsome & _).
  split.
  - apply (Hnone "unused").
  - apply (Hsome "tok123" "unused"). discriminate.
Defined.

Section TrimProps.
Context `{Externals}.

(** Modes that mean no authentication are interchangeable. *)
Lemma Current_doRequest_none_modes (p : Plugin) url a a' user pass :
  ToLower a = "none" \/ ToLower a = "" ->
  ToLower a' = "none" \/ ToLower a' = "" ->
  Current.doRequest p url a user pass = Current.doRequest p url a' user pass.
Proof.
  intros Ha Ha'. unfold Current.doRequest.
  rewrite !(Current_applyAuth_none _ _ _ _ Ha),
          !(Current_applyAuth_none _ _ _ _ Ha').
  reflexivity.
Qed.

(** X9: the URL of every request the current [Export] hands to
    [client.Do] is its first parameter trimmed, is not empty, and has no
    white space left around it. *)
Theorem Export_sends_trimmed_url (p : Plugin) (key : string)
    (params : list string) :
  Forall (fun call : Client * Request =>
            URL (snd call) = TrimSpace (nth 0 params "")
            /\ URL (snd call) <> ""
            /\ TrimSpace (URL (snd call)) = URL (snd call))
    (sent (Current.Export p key params)).
Proof.
  export_cases key params; try (cbn [sent]; constructor).
  eapply List.Forall_impl; [|apply Current_outgoing_request].
  cbn beta. intros call (_ & Hurl & _). rewrite Hurl.
  split; [reflexivity|]. split; [assumption|]. apply TrimSpace_idempotent.
Qed.

(** X10: white space around the URL and the mode parameter makes no
    difference to the current [Export]: the run on the trimmed parameters
    is the run on the parameters as given. *)
Theorem Export_trim_invariant :
  (forall (p : Plugin) (key u : string),
      Current.Export p key [TrimSpace u] = Current.Export p key [u])
  /\
  (forall (p : Plugin) (key u a : string) (rest : list string),
      Current.Export p key (TrimSpace u :: TrimSpace a :: rest)
      = Current.Export p key (u :: a :: rest)).
Proof.
  split.
  - intros p key u. unfold Current.Export. cbn [nth length].
    rewrite !TrimSpace_idempotent. reflexivity.
  - intros p key u a rest. unfold Current.Export. cbn [nth length].
    rewrite !TrimSpace_idempotent. reflexivity.
Qed.

(** X11: parameters left out behave as their defaults: a missing mode as
    [none], a missing user or password as the empty string, in both
    copies; in the current one a blank mode is [none] as well. *)
Theorem Export_missing_parameters_default :
  (forall (p : Plugin) (key u : string),
      Current.Export p key [u] = Current.Export p key [u; "none"; ""; ""]
      /\ Legacy.Export p key [u] = Legacy.Export p key [u; "none"; ""; ""])
  /\
  (forall (p : Plugin) (key u a : string),
      Current.Export p key [u; a] = Current.Export p key [u; a; ""; ""]
      /\ Legacy.Export p key [u; a] = Legacy.Export p key [u; a; ""; ""])
  /\
  (forall (p : Plugin) (key u a : string) (rest : list string),
      TrimSpace a = "" ->
      Current.Export p key (u :: a :: rest)
      = Current.Export p key (u :: "none" :: rest)).
Proof.
  split; [|split].
  - intros p key u. split; reflexivity.
  - intros p key u a. split; reflexivity.
  - intros p key u a rest Hb. unfold Current.Export. cbn [nth length].
    rewrite Hb. cbn [String.eqb negb]. rewrite andb_false_r.
    change (TrimSpace "none") with "none".
    cbn [String.eqb Ascii.eqb Bool.eqb negb]. rewrite andb_true_r.
    destruct (1 <? S (S (length rest)))%nat; reflexivity.
Qed.

(** X12: on parameters that are already trimmed the current [Export] adds
    nothing to [doRequest]: with the right key, a URL that is not empty and
    four parameters, the two runs are the same (an empty mode being
    [none]). *)
Theorem Export_is_doRequest_on_trimmed (p : Plugin)
    (url authType user pass : string) :
  TrimSpace url = url ->
  url <> "" ->
  TrimSpace authType = authType ->
  Current.Export p "segi9.http" [url; authType; user; pass]
  = Current.doRequest p url authType user pass.
Proof.
  intros Hurl Hne Hmode.
  rewrite Current_Export_served; cbn [nth]; rewrite ?Hurl;
    [|discriminate|exact Hne].
  destruct (String.string_dec authType "") as [->|Ha].
  - rewrite currentAuthType_omitted by reflexivity.
    apply Current_doRequest_none_modes; [left|right]; reflexivity.
  - rewrite currentAuthType_given; cbn [nth]; rewrite Hmode;
      [reflexivity | exact Ha].
Qed.

(** X13: a failure of [client.Do] or of reading the body comes back as an
    error that wraps the library's error — together with the URL in the
    current plugin — and each of the two has a message of its own. *)
Theorem failures_wrap_cause :
  (forall (p : Plugin) (url authType user pass : string)
          (c : Client) (req : Request),
      sent (Current.doRequest p url authType user pass) = [(c, req)] ->
      (forall err,
          client_Do c req = Err err ->
          returned (Current.doRequest p url authType user pass)
          = Err (fmt_Errorf "HTTP request to %q failed: %w"
                   [ArgString url; ArgError err]))
      /\ (forall resp err,
             client_Do c req = Ok resp -> Body resp = Err err ->
             returned (Current.doRequest p url authType user pass)
             = Err (fmt_Errorf "failed to read response body from %q: %w"
                      [ArgString url; ArgError err])))
  /\
  (forall (p : Plugin) (key : string) (params : list string)
          (c : Client) (req : Request),
      sent (Legacy.Export p key params) = [(c, req)] ->
      (forall err,
          client_Do c req = Err err ->
          returned (Legacy.Export p key params)
          = Err (fmt_Errorf "request failed: %w" [ArgError err]))
      /\ (forall resp err,
             client_Do c req = Ok resp -> Body resp = Err err ->
             returned (Legacy.Export p key params)
             = Err (fmt_Errorf "failed to read response body: %w"
                      [ArgError err]))).
Proof.
  split.
  - intros p url authType user pass c req. unfold Current.doRequest.
    destruct (http_NewRequest http_MethodGet url); [discriminate|].
    destruct (Current.applyAuth _ _ _ _) as [r|e]; [|discriminate].
    destruct (client_Do _ r) as [resp|err] eqn:Hdo.
    + destruct (Body resp) as [b|err] eqn:Hbody; cbn [sent returned];
        intros Hs; inversion Hs; subst; split.
      * intros err Hd. congruence.
      * intros resp' err Hd Hb. congruence.
      * intros err' Hd. congruence.
      * intros resp' err' Hd Hb. congruence.
    + cbn [sent returned]. intros Hs. inversion Hs; subst. split.
      * intros err' Hd. congruence.
      * intros resp' err' Hd Hb. congruence.
  - intros p key params c req. unfold Legacy.Export.
    destruct (length params <? 1)%nat; [discriminate|].
    destruct (String.eqb (nth 0 params "") ""); [discriminate|].
    destruct (http_NewRequest "GET" (nth 0 params "")); [discriminate|].
    destruct (Legacy.applyAuth _ _ _ _) as [r|e]; [|discriminate].
    destruct (client_Do _ r) as [resp|err] eqn:Hdo.
    + destruct (Body resp) as [b|err] eqn:Hbody; cbn [sent returned];
        intros Hs; inversion Hs; subst; split.
      * intros err Hd. congruence.
      * intros resp' err Hd Hb. congruence.
      * intros err' Hd. congruence.
      * intros resp' err' Hd Hb. congruence.
    + cbn [sent returned]. intros Hs. inversion Hs; subst. split.
      * intros err' Hd. congruence.
      * intros resp' err' Hd Hb. congruence.
Qed.

End TrimProps.

Lemma Export_is_doRequest_on_trimmed_witness :
  @Current.Export sample (mkPlugin (mkConfig 10 true)) "segi9.http"
    ["https://example.test/secure"; "basic"; "admin"; "s3cr3t"]
  = @Current.doRequest sample (mkPlugin (mkConfig 10 true))
      "https://example.test/secure" "basic" "admin" "s3cr3t".
Proof.
  apply (@Export_is_doRequest_on_trimmed sample);
    [reflexivity | discriminate | reflexivity].
Defined.

Lemma Export_missing_parameters_default_witness :
  @Current.Export sample (mkPlugin (mkConfig 10 false)) "segi9.http"
    ["https://example.test/status"; "  "; "admin"]
  = @Current.Export sample (mkPlugin (mkConfig 10 false)) "segi9.http"
      ["https://example.test/status"; "none"; "admin"].
Proof.
  apply (proj2 (proj2 (@Export_missing_parameters_default sample))).
  reflexivity.
Defined.

Lemma failures_wrap_cause_witness :
  returned (@Current.doRequest refusing (mkPlugin (mkConfig 10 false))
              "https://example.test/status" "none" "" "")
  = Err (fmt_Errorf "HTTP request to %q failed: %w"
           [ArgString "https://example.test/status";
            ArgError (errors_New "dial tcp: connection refused")])
  /\ returned (@Legacy.Export breaking (mkPlugin (mkConfig 10 false))
                 "segi9.http" ["https://example.test/status"])
     = Err (fmt_Errorf "failed to read response body: %w"
              [ArgError (errors_New "unexpected EOF")]).
Proof.
  split.
  - apply (proj1 (proj1 (@failures_wrap_cause refusing)
                    (mkPlugin (mkConfig 10 false))
                    "https://example.test/status" "none" "" ""
                    (currentClient (mkPlugin (mkConfig 10 false)))
                    (currentRequest "https://example.test/status")
                    eq_refl)).
    reflexivity.
  - apply (proj2 (proj2 (@failures_wrap_cause breaking)
                    (mkPlugin (mkConfig 10 false)) "segi9.http"
                    ["https://example.test/status"]
                    (legacyClient (mkPlugin (mkConfig 10 false)))
                    (legacyRequest "https://example.test/status")
                    eq_refl)
             {| Status := "200 OK"; StatusCode := 200;
                Body := Err (errors_New "unexpected EOF") |}
             (errors_New "unexpected EOF")); reflexivity.
Defined.

(** ** The log *)

Section LogProps.
Context `{Externals}.

(** Leaving the log lines out gives back the functions modelled first. *)
Lemma CurrentLogged_doRequest_run (logger : bool) (p : Plugin)
    url authType user pass :
  snd (CurrentLogged.doRequest logger p url authType user pass)
  = Current.doRequest p url authType user pass.
Proof.
  unfold CurrentLogged.doRequest, Current.doRequest.
  destruct (http_NewRequest http_MethodGet url); [reflexivity|].
  destruct (Current.applyAuth _ _ _ _) as [req|e]; [|reflexivity].
  destruct (client_Do _ req) as [resp|err]; [|reflexivity].
  destruct (Body resp); reflexivity.
Qed.

Lemma CurrentLogged_Export_run (logger : bool) (p : Plugin) key params :
  snd (CurrentLogged.Export logger p key params) = Current.Export p key params.
Proof.
  unfold CurrentLogged.Export, Current.Export.
  destruct (negb (String.eqb key "segi9.http")); [reflexivity|].
  destruct (_ || _); [reflexivity|].
  rewrite <- CurrentLogged_doRequest_run with (logger := logger).
  destruct (CurrentLogged.doRequest _ _ _ _ _ _). reflexivity.
Qed.

Lemma LegacyLogged_Export_run (url_String : string -> string)
    (logger : bool) (p : Plugin) key params :
  snd (LegacyLogged.Export url_String logger p key params)
  = Legacy.Export p key params.
Proof.
  unfold LegacyLogged.Export, Legacy.Export.
  destruct (length params <? 1)%nat; [reflexivity|].
  destruct (String.eqb (nth 0 params "") ""); [reflexivity|].
  destruct (http_NewRequest "GET" (nth 0 params "")); [reflexivity|].
  destruct (Legacy.applyAuth _ _ _ _) as [req|e]; [|reflexivity].
  destruct (client_Do _ req) as [resp|err]; [|reflexivity].
  destruct (Body resp); reflexivity.
Qed.

(** Two requests that differ in their [Authorization] header only. *)
Lemma Current_applyAuth_same_target authType user pass user' pass' req r r' :
  Current.applyAuth authType user pass req = Ok r ->
  Current.applyAuth authType user' pass' req = Ok r' ->
  Method r = Method r' /\ URL r = URL r'.
Proof.
  intros Hr Hr'. apply Current_applyAuth_frame in Hr, Hr'.
  destruct Hr as (Hm & Hu & _), Hr' as (Hm' & Hu' & _). split; congruence.
Qed.

(** Whether the switch rejects depends on the credentials only through
    the emptiness of the user. *)
Lemma Current_applyAuth_rejects_alike authType user pass user' pass' req :
  (user = "" <-> user' = "") ->
  match Current.applyAuth authType user pass req,
        Current.applyAuth authType user' pass' req with
  | Ok _, Ok _ => True
  | Err e, Err e' => e = e'
  | _, _ => False
  end.
Proof.
  intros Hiff. unfold Current.applyAuth.
  destruct (String.eqb (ToLower authType) "basic"); [exact I|].
  destruct (String.eqb (ToLower authType) "bearer").
  - destruct (String.eqb_spec user ""), (String.eqb_spec user' "");
      try exact I; try reflexivity; tauto.
  - destruct (_ || _); [exact I | reflexivity].
Qed.

(** X14: the log of the current plugin does not depend on the
    credentials.  Two [Export] calls that differ only in the user and the
    password write the same lines, provided the user is empty in both or
    in neither (an empty bearer token is rejected, which is logged
    differently) and [client.Do] answers requests for the same URL alike.
    No token and no password reaches the log. *)
Theorem Current_log_hides_credentials (logger : bool) (p : Plugin)
    (key url mode user pass user' pass' : string) :
  (user = "" <-> user' = "") ->
  (forall c r r', URL r = URL r' -> client_Do c r = client_Do c r') ->
  fst (CurrentLogged.Export logger p key [url; mode; user; pass])
  = fst (CurrentLogged.Export logger p key [url; mode; user'; pass']).
Proof.
  intros Hiff Hsame. unfold CurrentLogged.Export. cbn [nth length].
  destruct (negb (String.eqb key "segi9.http")); [reflexivity|].
  destruct (_ || _); [reflexivity|].
  cbn [Nat.ltb Nat.leb].
  match goal with
  | |- context [CurrentLogged.doRequest _ _ _ ?a _ _] => set (authType := a)
  end.
  unfold CurrentLogged.doRequest.
  destruct (http_NewRequest http_MethodGet (TrimSpace url)); [reflexivity|].
  pose proof (Current_applyAuth_rejects_alike authType user pass user' pass'
                (Header_Set "Accept" "*/*"
                   (Header_Set "User-Agent" "Zabbix-Plugin-Segi9/1.0"
                      (newRequest http_MethodGet (TrimSpace url)))) Hiff)
    as Halike.
  destruct (Current.applyAuth authType user pass _) as [r|e] eqn:Hr;
    destruct (Current.applyAuth authType user' pass' _) as [r'|e'] eqn:Hr';
    try contradiction; [|reflexivity].
  destruct (Current_applyAuth_same_target _ _ _ _ _ _ _ _ Hr Hr') as (_ & Hurl).
  rewrite (Hsame _ r r' Hurl).
  destruct (client_Do _ r') as [resp|err]; [|reflexivity].
  destruct (Body resp); reflexivity.
Qed.

Lemma Legacy_applyAuth_alike authType user pass user' pass' req :
  match Legacy.applyAuth authType user pass req,
        Legacy.applyAuth authType user' pass' req with
  | Ok r, Ok r' => Method r = Method r' /\ URL r = URL r'
  | Err e, Err e' => e = e'
  | _, _ => False
  end.
Proof.
  unfold Legacy.applyAuth.
  repeat match goal with
         | |- context [if ?b then _ else _] => destruct b
         end; try reflexivity; split; reflexivity.
Qed.

(** X15: the log of the legacy plugin does not depend on the credentials
    either: two [Export] calls that differ only in the user and the
    password write the same lines, provided [client.Do] answers requests
    for the same URL alike.  The two parameters are only ever reported as
    "provided (masked)". *)
Theorem Legacy_log_hides_credentials (url_String : string -> string)
    (logger : bool) (p : Plugin)
    (key url mode user pass user' pass' : string) :
  (forall c r r', URL r = URL r' -> client_Do c r = client_Do c r') ->
  fst (LegacyLogged.Export url_String logger p key [url; mode; user; pass])
  = fst (LegacyLogged.Export url_String logger p key
           [url; mode; user'; pass']).
Proof.
  intros Hsame. unfold LegacyLogged.Export. cbn [nth length Nat.ltb Nat.leb].
  destruct (String.eqb url ""); [reflexivity|].
  match goal with
  | |- context [Legacy.applyAuth ?a _ _ _] => set (authType := a)
  end.
  destruct (http_NewRequest "GET" url); [reflexivity|].
  pose proof (Legacy_applyAuth_alike authType user pass user' pass'
                (Header_Set "Content-Type" "application/json"
                   (newRequest "GET" url))) as Halike.
  destruct (Legacy.applyAuth authType user pass _) as [r|e];
    destruct (Legacy.applyAuth authType user' pass' _) as [r'|e'];
    try contradiction; [|reflexivity].
  destruct Halike as (Hm & Hurl).
  rewrite (Hsame _ r r' Hurl), Hm, Hurl.
  destruct (client_Do _ r') as [resp|err]; [|reflexivity].
  destruct (Body resp); reflexivity.
Qed.

End LogProps.

Lemma Current_log_hides_credentials_witness :
  fst (@CurrentLogged.Export sample true (mkPlugin (mkConfig 10 false))
         "segi9.http"
         ["https://example.test/secure"; "basic"; "admin"; "s3cr3t"])
  = fst (@CurrentLogged.Export sample true (mkPlugin (mkConfig 10 false))
           "segi9.http"
           ["https://example.test/secure"; "basic"; "root"; "hunter2"]).
Proof.
  apply (@Current_log_hides_credentials sample true
           (mkPlugin (mkConfig 10 false)) "segi9.http"
           "https://example.test/secure" "basic"
           "admin" "s3cr3t" "root" "hunter2").
  - split; discriminate.
  - intros c r r' _. reflexivity.
Defined.

Lemma Legacy_log_hides_credentials_witness :
  fst (@LegacyLogged.Export sample (fun u => u) false
         (mkPlugin (mkConfig 10 false)) "segi9.http"
         ["https://example.test/data"; "bearer"; "tok123"; ""])
  = fst (@LegacyLogged.Export sample (fun u => u) false
           (mkPlugin (mkConfig 10 false)) "segi9.http"
           ["https://example.test/data"; "bearer"; ""; "s3cr3t"]).
Proof.
  apply (@Legacy_log_hides_credentials sample (fun u => u) false
           (mkPlugin (mkConfig 10 false)) "segi9.http"
           "https://example.test/data" "bearer" "tok123" "" "" "s3cr3t").
  intros c r r' _. reflexivity.
Defined.

(** ** Manual mode *)

Section ManualProps.
Context `{Externals}.

(** X16: manual mode of the current plugin runs [doRequest] once with a
    deadline of 10 seconds and TLS verification off.  When it succeeds the
    body, and nothing else, is printed on standard output and the exit
    status is 0; when it fails nothing is printed on standard output, the
    last line on standard error is the error, and the exit status is 1. *)
Theorem runManual_outcome (url authType user pass : string) :
  calls (CurrentMain.runManual url authType user pass)
  = sent (Current.doRequest (mkPlugin (mkConfig 10 true))
            url authType user pass)
  /\ (forall body,
         returned (Current.doRequest (mkPlugin (mkConfig 10 true))
                     url authType user pass) = Ok body ->
         stdout (CurrentMain.runManual url authType user pass)
         = [Println [ArgString body]]
         /\ status (CurrentMain.runManual url authType user pass) = 0)
  /\ (forall e,
         returned (Current.doRequest (mkPlugin (mkConfig 10 true))
                     url authType user pass) = Err e ->
         stdout (CurrentMain.runManual url authType user pass) = []
         /\ status (CurrentMain.runManual url authType user pass) = 1
         /\ exists before,
              stderr (CurrentMain.runManual url authType user pass)
              = (before ++ [ErrPrintf "error: %v\n" [ArgError e]])%list)
  /\ Forall (fun call : Client * Request =>
               Client_Timeout (fst call) = 10 * time_Second
               /\ InsecureSkipVerify (fst call) = true)
       (calls (CurrentMain.runManual url authType user pass)).
Proof.
  pose proof (CurrentLogged_doRequest_run false (mkPlugin (mkConfig 10 true))
                url authType user pass) as Hrun.
  assert (Hcalls : calls (CurrentMain.runManual url authType user pass)
                   = sent (Current.doRequest (mkPlugin (mkConfig 10 true))
                             url authType user pass)).
  { unfold CurrentMain.runManual.
    destruct (CurrentLogged.doRequest _ _ _ _ _ _) as [lines run].
    cbn [snd] in Hrun. subst run.
    destruct (returned _); reflexivity. }
  split; [exact Hcalls|]. split; [|split].
  - intros body Hok. unfold CurrentMain.runManual.
    destruct (CurrentLogged.doRequest _ _ _ _ _ _) as [lines run].
    cbn [snd] in Hrun. subst run. rewrite Hok. split; reflexivity.
  - intros e Herr. unfold CurrentMain.runManual.
    destruct (CurrentLogged.doRequest _ _ _ _ _ _) as [lines run].
    cbn [snd] in Hrun. subst run. rewrite Herr. cbn [stdout status stderr].
    split; [reflexivity|]. split; [reflexivity|].
    exists (ErrPrintf "[manual] url=%s auth=%s\n"
              [ArgString url; ArgString authType] :: map ErrLog lines).
    reflexivity.
  - rewrite Hcalls.
    eapply List.Forall_impl; [|apply Current_outgoing_request].
    cbn beta. intros call (_ & _ & _ & _ & Ht & Hs).
    rewrite Ht, Hs. split; reflexivity.
Qed.

(** The parameters the legacy manual mode assembles from its flags. *)
Lemma Legacy_runManual_calls (url_String : string -> string)
    (flags : Flags) :
  flag_manual flags <> "" ->
  calls (LegacyMain.runManual url_String flags)
  = sent (Legacy.Export (mkPlugin (mkConfig 10 true)) "segi9.http"
            (manualParams flags)).
Proof.
  intros Hurl. unfold LegacyMain.runManual, manualParams.
  apply String.eqb_neq in Hurl. rewrite Hurl.
  pose proof (LegacyLogged_Export_run url_String false
                (mkPlugin (mkConfig 10 true)) "segi9.http"
                (if negb (String.eqb (flag_auth flags) "none")
                 then [flag_manual flags; flag_auth flags; flag_user flags;
                       flag_pass flags]
                 else [flag_manual flags])) as Hrun.
  destruct (LegacyLogged.Export _ _ _ _ _) as [lines run].
  cbn [snd] in Hrun. subst run.
  destruct (returned _); reflexivity.
Qed.

(** X17: manual mode of the legacy plugin.  Without a [-manual] URL it
    prints the usage text and exits with status 1 without any call.
    Otherwise it runs [Export] once on the parameters from the flags; on
    success the body alone goes to standard output and the status is 0,
    on failure the line [Error: <error>] goes to standard output (not to
    standard error) and the status is 1.  With [-auth none] the [-user]
    and [-pass] flags play no part at all. *)
Theorem Legacy_runManual_outcome (url_String : string -> string) :
  (forall flags : Flags,
      flag_manual flags = "" ->
      LegacyMain.runManual url_String flags = mkProcess [] [ErrUsage] 1 [])
  /\
  (forall flags : Flags,
      flag_manual flags <> "" ->
      calls (LegacyMain.runManual url_String flags)
      = sent (Legacy.Export (mkPlugin (mkConfig 10 true)) "segi9.http"
                (manualParams flags))
      /\ (forall res,
             returned (Legacy.Export (mkPlugin (mkConfig 10 true))
                         "segi9.http" (manualParams flags)) = Ok res ->
             stdout (LegacyMain.runManual url_String flags)
             = [Println [ArgString res]]
             /\ status (LegacyMain.runManual url_String flags) = 0)
      /\ (forall e,
             returned (Legacy.Export (mkPlugin (mkConfig 10 true))
                         "segi9.http" (manualParams flags)) = Err e ->
             stdout (LegacyMain.runManual url_String flags)
             = [Printf "Error: %v\n" [ArgError e]]
             /\ status (LegacyMain.runManual url_String flags) = 1))
  /\
  (forall (url user pass user' pass' : string),
      LegacyMain.runManual url_String (mkFlags url "none" user pass)
      = LegacyMain.runManual url_String (mkFlags url "none" user' pass')).
Proof.
  split; [|split].
  - intros flags Hurl. unfold LegacyMain.runManual. rewrite Hurl. reflexivity.
  - intros flags Hurl. split; [apply Legacy_runManual_calls, Hurl|].
    unfold LegacyMain.runManual, manualParams.
    apply String.eqb_neq in Hurl. rewrite Hurl.
    pose proof (LegacyLogged_Export_run url_String false
                  (mkPlugin (mkConfig 10 true)) "segi9.http"
                  (if negb (String.eqb (flag_auth flags) "none")
                   then [flag_manual flags; flag_auth flags; flag_user flags;
                         flag_pass flags]
                   else [flag_manual flags])) as Hrun.
    destruct (LegacyLogged.Export _ _ _ _ _) as [lines run].
    cbn [snd] in Hrun. subst run.
    split.
    + intros res Hok. rewrite Hok. split; reflexivity.
    + intros e Herr. rewrite Herr. split; reflexivity.
  - intros url user pass user' pass'. reflexivity.
Qed.

End ManualProps.

(** ** Socket clean-up *)

(** X18: [cleanupSocket] hands to [os.Remove] nothing but the socket path,
    and that exactly when [os.Stat] answered with the information of
    something that is not a directory; it logs at most one warning, and
    none exactly when [os.Stat] reported that nothing is there, or reported
    a directory, or reported something else that [os.Remove] then removed
    without an error. *)
Theorem cleanupSocket_removes_only_socket
    (os_Stat : string -> LegacyMain.StatResult)
    (os_Remove : string -> option error) (socket : string) :
  (fst (LegacyMain.cleanupSocket os_Stat os_Remove socket) = [socket]
   \/ fst (LegacyMain.cleanupSocket os_Stat os_Remove socket) = [])
  /\ (fst (LegacyMain.cleanupSocket os_Stat os_Remove socket) = [socket]
      <-> os_Stat socket = LegacyMain.StatInfo false)
  /\ (length (snd (LegacyMain.cleanupSocket os_Stat os_Remove socket)) <= 1)%nat
  /\ (snd (LegacyMain.cleanupSocket os_Stat os_Remove socket) = []
      <-> os_Stat socket = LegacyMain.StatNotExist
          \/ os_Stat socket = LegacyMain.StatInfo true
          \/ (os_Stat socket = LegacyMain.StatInfo false
              /\ os_Remove socket = None)).
Proof.
  unfold LegacyMain.cleanupSocket.
  destruct (os_Stat socket) as [[|]| |err] eqn:Hstat; cbn [negb fst snd].
  - split; [right; reflexivity|]. split; [split; discriminate|].
    split; [cbn; lia|]. split; [intros _; right; left; reflexivity|reflexivity].
  - destruct (os_Remove socket) as [err|] eqn:Hrm; cbn [fst snd].
    + split; [left; reflexivity|]. split; [split; reflexivity|].
      split; [cbn; lia|]. split; [discriminate|].
      intros [Hd|[Hd|[_ Hd]]]; discriminate Hd.
    + split; [left; reflexivity|]. split; [split; reflexivity|].
      split; [cbn; lia|]. split; [|reflexivity].
      intros _. right; right. split; reflexivity.
  - split; [right; reflexivity|]. split; [split; discriminate|].
    split; [cbn; lia|]. split; [intros _; left; reflexivity|reflexivity].
  - split; [right; reflexivity|]. split; [split; discriminate|].
    split; [cbn; lia|]. split; [discriminate|].
    intros [Hd|[Hd|[Hd _]]]; discriminate Hd.
Qed.

Lemma runManual_outcome_witness :
  stdout (@CurrentMain.runManual sample "https://example.test/status"
            "none" "" "") = [Println [ArgString "down"]]
  /\ status (@CurrentMain.runManual refusing "https://example.test/status"
               "none" "" "") = 1.
Proof.
  split.
  - apply (proj1 (proj2 (@runManual_outcome sample
                           "https://example.test/status" "none" "" ""))
             "down"). reflexivity.
  - apply (proj1 (proj2 (proj2 (@runManual_outcome refusing
                                  "https://example.test/status" "none" "" "")))
             (fmt_Errorf "HTTP request to %q failed: %w"
                [ArgString "https://example.test/status";
                 ArgError (errors_New "dial tcp: connection refused")])).
    reflexivity.
Defined.

Lemma Legacy_runManual_outcome_witness :
  stdout (@LegacyMain.runManual refusing (fun u => u)
            (mkFlags "https://example.test/status" "basic" "admin" "s3cr3t"))
  = [Printf "Error: %v\n"
       [ArgError (fmt_Errorf "request failed: %w"
                    [ArgError (errors_New "dial tcp: connection refused")])]]
  /\ @LegacyMain.runManual sample (fun u => u) (mkFlags "" "none" "" "")
     = mkProcess [] [ErrUsage] 1 [].
Proof.
  destruct (@Legacy_runManual_outcome refusing (fun u => u))
    as (_ & Hrun & _).
  destruct (@Legacy_runManual_outcome sample (fun u => u)) as (Husage & _).
  split.
  - apply (Hrun (mkFlags "https://example.test/status" "basic" "admin"
                   "s3cr3t")); [discriminate | reflexivity].
  - apply (Husage (mkFlags "" "none" "" "")). reflexivity.
Defined.

Lemma cleanupSocket_removes_only_socket_witness :
  LegacyMain.cleanupSocket
    (fun name => if String.eqb name "/run/zabbix/segi9.sock"
                 then LegacyMain.StatInfo false else LegacyMain.StatNotExist)
    (fun _ => None) "/run/zabbix/segi9.sock"
  = (["/run/zabbix/segi9.sock"], []).
Proof.
  destruct (cleanupSocket_removes_only_socket
              (fun name => if String.eqb name "/run/zabbix/segi9.sock"
                           then LegacyMain.StatInfo false
                           else LegacyMain.StatNotExist)
              (fun _ => None) "/run/zabbix/segi9.sock")
    as (_ & Hrm & _ & Hlog).
  apply injective_projections.
  - apply Hrm. reflexivity.
  - apply Hlog. right; right. split; reflexivity.
Defined.
